(** * graphrag.query.input.loaders.dfs: dataframe rows to data objects

    A shallow embedding of [dfs.py]: the six [read_*] loaders, the
    [_prepare_records] step they share, the fragment of pandas that step uses
    ([reset_index], [rename], [to_dict("records")]) and the Python values
    that live in the cells of a frame.

    Exceptions are results of an error monad; keyword arguments are evaluated
    left to right and rows in table order, so the first failing field of the
    first failing row decides which exception leaves a loader. *)

From Stdlib Require Import ZArith String DecimalString.
From Stdlib Require Import Floats.SpecFloat.
From stdpp Require Import gmap strings list fin_maps pretty.

(** ** Exceptions and results *)

(** The exceptions a load call can end in.  [MissingColumnError] and
    [CoercionError] are the two kinds the coercion helpers raise; [KeyError]
    is Python's own for [row["Index"]] on a missing key, [ValueError] is what
    pandas raises when [reset_index] cannot insert the index column. *)
Inductive Error :=
  | MissingColumnError
  | CoercionError
  | KeyError (key : string)
  | ValueError.

Inductive Result (A : Type) :=
  | Ok (a : A)
  | Raise (e : Error).
Arguments Ok {A} a.
Arguments Raise {A} e.

#[global] Instance Result_ret : MRet Result := λ A a, Ok a.
#[global] Instance Result_bind : MBind Result := λ A B f m,
  match m with Ok a => f a | Raise e => Raise e end.
#[global] Instance Result_fmap : FMap Result := λ A B f m,
  match m with Ok a => Ok (f a) | Raise e => Raise e end.

Definition raises {A} (m : Result A) : bool :=
  match m with Ok _ => false | Raise _ => true end.

(** ** Python values *)

(** Python's [float] is IEEE-754 binary64; [spec_float] is that format's
    mathematical description (sign, mantissa, exponent). *)
Abbreviation float := spec_float.

(** What a cell of a frame can hold.  [VList] stands for any sequence (a
    list or a numpy array), [VDict] for a mapping, in insertion order. *)
#[local] Unset Elimination Schemes.
Inductive Value :=
  | VNone
  | VBool (b : bool)
  | VInt (n : Z)
  | VFloat (f : float)
  | VStr (s : string)
  | VList (items : list Value)
  | VDict (items : list (Value * Value)).
#[local] Set Elimination Schemes.

(** The type objects the loaders pass as [item_type], [key_type] and
    [value_type]. *)
Inductive PyType := py_str_t | py_float_t | py_int_t.

(** The interpreter's conversions between numbers and text that are not
    re-implemented here: the [repr] of floats and of containers, and the
    parsers behind [int(s)] and [float(s)].  What is proved of the loaders
    holds whatever they are. *)
Class PyBuiltins := {
  repr_other : Value → string;
  int_of_text : string → option Z;
  float_of_text : string → option float;
}.

(** [str(v)].  Exact on [None], booleans, integers and strings. *)
Definition str `{PyBuiltins} (v : Value) : string :=
  match v with
  | VNone => "None"
  | VBool true => "True"
  | VBool false => "False"
  | VInt n => pretty n
  | VStr s => s
  | _ => repr_other v
  end.

(** Truthiness of a [str | None] argument: [None] and [""] are false. *)
Definition truthy_col (c : option string) : bool :=
  match c with
  | Some s => negb (String.eqb s "")
  | None => false
  end.

(** Truthiness of a [list[str] | None] argument: [None] and [[]] are false. *)
Definition truthy_cols (cs : option (list string)) : bool :=
  match cs with
  | Some (_ :: _) => true
  | _ => false
  end.

(** ** Row mappings *)

(** One record of [to_dict("records")]: a dict from column name to cell. *)
Abbreviation Row := (gmap string Value).

(** [row[key]] *)
Definition getitem (row : Row) (key : string) : Result Value :=
  match row !! key with
  | Some v => Ok v
  | None => Raise (KeyError key)
  end.

(** [row.get(key)] *)
Definition get (row : Row) (key : string) : Value :=
  default VNone (row !! key).

(** [dict(zip(keys, cells))]: a later duplicate key overwrites an earlier
    one. *)
Definition dict_of_zip (keys : list string) (cells : list Value) : Row :=
  foldl (λ d kv, <[kv.1 := kv.2]> d) ∅ (zip keys cells).

(** [{col: row.get(col) for col in cols}] *)
Definition attributes_of (row : Row) (cols : list string) : Row :=
  foldl (λ d col, <[col := get row col]> d) ∅ cols.

(** ** The fragment of pandas the loaders use *)

(** A frame with a single-level index and string column labels: the name
    of the index ([df.index.name]), the column labels in order, and the rows
    in order, each with its index label and its cells (one per column), as
    the Python objects [to_dict] hands out. *)
Record DataFrame := {
  index_name : option string;
  columns : list string;
  rows : list (Value * list Value);
}.

(** A frame as pandas builds it unless told otherwise: unnamed index
    [0, 1, ..., N-1]. *)
Definition range_index (df : DataFrame) : Prop :=
  index_name df = None ∧
  ∀ (i : nat) label cells,
    rows df !! i = Some (label, cells) → label = VInt (Z.of_nat i).

(** The label [reset_index] gives the column that receives the old index:
    the index's name, else ["index"], else ["level_0"] when the frame
    already has a column ["index"]. *)
Definition reset_label (df : DataFrame) : string :=
  match index_name df with
  | Some name => name
  | None => if bool_decide ("index" ∈ columns df) then "level_0" else "index"
  end.

(** [df.reset_index()]: the old index becomes the first column and the rows
    are relabelled [0..N-1]; [ValueError] ("cannot insert ..., already
    exists") when the frame has a column of that label. *)
Definition reset_index (df : DataFrame) : Result DataFrame :=
  if bool_decide (reset_label df ∈ columns df) then Raise ValueError
  else Ok {| index_name := None;
             columns := reset_label df :: columns df;
             rows := imap (λ i r, (VInt (Z.of_nat i), r.1 :: r.2))
                       (rows df) |}.

(** [df.rename(columns={old: new})] *)
Definition rename (old new : string) (df : DataFrame) : DataFrame :=
  {| index_name := index_name df;
     columns := (λ c, if String.eqb c old then new else c) <$> columns df;
     rows := rows df |}.

(** [df.to_dict("records")]: one dict per row, the index left out. *)
Definition to_dict_records (df : DataFrame) : list Row :=
  (λ r, dict_of_zip (columns df) r.2) <$> rows df.

(** ** dfs.py *)

Definition _prepare_records (df : DataFrame) : Result (list Row) :=
  df_reset ← (rename "index" "Index" <$> reset_index df);
  mret (to_dict_records df_reset).

(** *** The helpers imported from [loaders.utils] *)

(** The seven coercion helpers [dfs.py] imports.  The loaders are written
    against this interface; what is proved of them for every implementation
    of it holds of the program whatever [utils.py] does. *)
Class Coercions := {
  to_str : Row → option string → Result string;
  to_optional_str : Row → option string → Result (option string);
  to_list : Row → option string → option PyType → Result (list Value);
  to_optional_list :
    Row → option string → option PyType → Result (option (list Value));
  to_optional_int : Row → option string → Result (option Z);
  to_optional_float : Row → option string → Result (option float);
  to_optional_dict :
    Row → option string → option PyType → option PyType →
    Result (option (list (Value * Value)));
}.

(** *** The data objects *)

Module Entity.
Record t := {
  id : string;
  short_id : option string;
  title : string;
  type : option string;
  description : option string;
  name_embedding : option (list Value);
  description_embedding : option (list Value);
  community_ids : option (list Value);
  text_unit_ids : option (list Value);
  rank : option Z;
  attributes : option Row;
}.
End Entity.

Module Relationship.
Record t := {
  id : string;
  short_id : option string;
  source : string;
  target : string;
  description : option string;
  description_embedding : option (list Value);
  weight : option float;
  text_unit_ids : option (list Value);
  rank : option Z;
  attributes : option Row;
}.
End Relationship.

Module Covariate.
Record t := {
  id : string;
  short_id : option string;
  subject_id : string;
  covariate_type : string;
  text_unit_ids : option (list Value);
  attributes : option Row;
}.
End Covariate.

Module Community.
Record t := {
  id : string;
  short_id : option string;
  title : string;
  level : string;
  entity_ids : option (list Value);
  relationship_ids : option (list Value);
  covariate_ids : option (list (Value * Value));
  parent : string;
  children : list Value;
  attributes : option Row;
}.
End Community.

Module CommunityReport.
Record t := {
  id : string;
  short_id : option string;
  title : string;
  community_id : string;
  summary : string;
  full_content : string;
  rank : option float;
  full_content_embedding : option (list Value);
  attributes : option Row;
}.
End CommunityReport.

Module TextUnit.
Record t := {
  id : string;
  short_id : option string;
  text : string;
  entity_ids : option (list Value);
  relationship_ids : option (list Value);
  covariate_ids : option (list (Value * Value));
  n_tokens : option Z;
  document_ids : option (list Value);
  attributes : option Row;
}.
End TextUnit.

(** *** Keyword arguments and their defaults *)

Module Entities.
Record kwargs := {
  id_col : string;
  short_id_col : option string;
  title_col : string;
  type_col : option string;
  description_col : option string;
  name_embedding_col : option string;
  description_embedding_col : option string;
  community_col : option string;
  text_unit_ids_col : option string;
  rank_col : option string;
  attributes_cols : option (list string);
}.
Definition defaults : kwargs := {|
  id_col := "id";
  short_id_col := Some "human_readable_id";
  title_col := "title";
  type_col := Some "type";
  description_col := Some "description";
  name_embedding_col := Some "name_embedding";
  description_embedding_col := Some "description_embedding";
  community_col := Some "community_ids";
  text_unit_ids_col := Some "text_unit_ids";
  rank_col := Some "degree";
  attributes_cols := None;
|}.
End Entities.

Module Relationships.
Record kwargs := {
  id_col : string;
  short_id_col : option string;
  source_col : string;
  target_col : string;
  description_col : option string;
  rank_col : option string;
  description_embedding_col : option string;
  weight_col : option string;
  text_unit_ids_col : option string;
  attributes_cols : option (list string);
}.
Definition defaults : kwargs := {|
  id_col := "id";
  short_id_col := Some "human_readable_id";
  source_col := "source";
  target_col := "target";
  description_col := Some "description";
  rank_col := Some "combined_degree";
  description_embedding_col := Some "description_embedding";
  weight_col := Some "weight";
  text_unit_ids_col := Some "text_unit_ids";
  attributes_cols := None;
|}.
End Relationships.

Module Covariates.
Record kwargs := {
  id_col : string;
  short_id_col : option string;
  subject_col : string;
  covariate_type_col : option string;
  text_unit_ids_col : option string;
  attributes_cols : option (list string);
}.
Definition defaults : kwargs := {|
  id_col := "id";
  short_id_col := Some "human_readable_id";
  subject_col := "subject_id";
  covariate_type_col := Some "type";
  text_unit_ids_col := Some "text_unit_ids";
  attributes_cols := None;
|}.
End Covariates.

Module Communities.
Record kwargs := {
  id_col : string;
  short_id_col : option string;
  title_col : string;
  level_col : string;
  entities_col : option string;
  relationships_col : option string;
  covariates_col : option string;
  parent_col : option string;
  children_col : option string;
  attributes_cols : option (list string);
}.
Definition defaults : kwargs := {|
  id_col := "id";
  short_id_col := Some "community";
  title_col := "title";
  level_col := "level";
  entities_col := Some "entity_ids";
  relationships_col := Some "relationship_ids";
  covariates_col := Some "covariate_ids";
  parent_col := Some "parent";
  children_col := Some "children";
  attributes_cols := None;
|}.
End Communities.

Module CommunityReports.
Record kwargs := {
  id_col : string;
  short_id_col : option string;
  title_col : string;
  community_col : string;
  summary_col : string;
  content_col : string;
  rank_col : option string;
  content_embedding_col : option string;
  attributes_cols : option (list string);
}.
Definition defaults : kwargs := {|
  id_col := "id";
  short_id_col := Some "community";
  title_col := "title";
  community_col := "community";
  summary_col := "summary";
  content_col := "full_content";
  rank_col := Some "rank";
  content_embedding_col := Some "full_content_embedding";
  attributes_cols := None;
|}.
End CommunityReports.

Module TextUnits.
Record kwargs := {
  id_col : string;
  text_col : string;
  entities_col : option string;
  relationships_col : option string;
  covariates_col : option string;
  tokens_col : option string;
  document_ids_col : option string;
  attributes_cols : option (list string);
}.
Definition defaults : kwargs := {|
  id_col := "id";
  text_col := "text";
  entities_col := Some "entity_ids";
  relationships_col := Some "relationship_ids";
  covariates_col := Some "covariate_ids";
  tokens_col := Some "n_tokens";
  document_ids_col := Some "document_ids";
  attributes_cols := Some ["metadata"];
|}.
End TextUnits.

(** *** The loaders *)

Section loaders.
Context `{!PyBuiltins, !Coercions}.

(** [str(row["Index"])] *)
Definition index_str (row : Row) : Result string :=
  str <$> getitem row "Index".

(** [to_optional_str(row, short_id_col) if short_id_col else
    str(row["Index"])] *)
Definition short_id_of (row : Row) (short_id_col : option string)
  : Result (option string) :=
  if truthy_col short_id_col then to_optional_str row short_id_col
  else Some <$> index_str row.

(** [{col: row.get(col) for col in attributes_cols} if attributes_cols
    else None] *)
Definition attributes_dict (row : Row) (attributes_cols : option (list string))
  : option Row :=
  if truthy_cols attributes_cols
  then Some (attributes_of row (default [] attributes_cols))
  else None.

(** The [Entity(...)] expression of [read_entities], for one row. *)
Definition entity_of_row (kw : Entities.kwargs) (row : Row)
  : Result Entity.t :=
  id ← to_str row (Some (Entities.id_col kw));
  short_id ← short_id_of row (Entities.short_id_col kw);
  title ← to_str row (Some (Entities.title_col kw));
  type ← to_optional_str row (Entities.type_col kw);
  description ← to_optional_str row (Entities.description_col kw);
  name_embedding ←
    to_optional_list row (Entities.name_embedding_col kw) (Some py_float_t);
  description_embedding ←
    to_optional_list row (Entities.description_embedding_col kw)
      (Some py_float_t);
  community_ids ←
    to_optional_list row (Entities.community_col kw) (Some py_str_t);
  text_unit_ids ← to_optional_list row (Entities.text_unit_ids_col kw) None;
  rank ← to_optional_int row (Entities.rank_col kw);
  mret {| Entity.id := id;
          Entity.short_id := short_id;
          Entity.title := title;
          Entity.type := type;
          Entity.description := description;
          Entity.name_embedding := name_embedding;
          Entity.description_embedding := description_embedding;
          Entity.community_ids := community_ids;
          Entity.text_unit_ids := text_unit_ids;
          Entity.rank := rank;
          Entity.attributes :=
            attributes_dict row (Entities.attributes_cols kw) |}.

Definition read_entities (df : DataFrame) (kw : Entities.kwargs)
  : Result (list Entity.t) :=
  records ← _prepare_records df;
  mapM (entity_of_row kw) records.

(** The [Relationship(...)] expression of [read_relationships]. *)
Definition relationship_of_row (kw : Relationships.kwargs) (row : Row)
  : Result Relationship.t :=
  id ← to_str row (Some (Relationships.id_col kw));
  short_id ← short_id_of row (Relationships.short_id_col kw);
  source ← to_str row (Some (Relationships.source_col kw));
  target ← to_str row (Some (Relationships.target_col kw));
  description ← to_optional_str row (Relationships.description_col kw);
  description_embedding ←
    to_optional_list row (Relationships.description_embedding_col kw)
      (Some py_float_t);
  weight ← to_optional_float row (Relationships.weight_col kw);
  text_unit_ids ←
    to_optional_list row (Relationships.text_unit_ids_col kw)
      (Some py_str_t);
  rank ← to_optional_int row (Relationships.rank_col kw);
  mret {| Relationship.id := id;
          Relationship.short_id := short_id;
          Relationship.source := source;
          Relationship.target := target;
          Relationship.description := description;
          Relationship.description_embedding := description_embedding;
          Relationship.weight := weight;
          Relationship.text_unit_ids := text_unit_ids;
          Relationship.rank := rank;
          Relationship.attributes :=
            attributes_dict row (Relationships.attributes_cols kw) |}.

Definition read_relationships (df : DataFrame) (kw : Relationships.kwargs)
  : Result (list Relationship.t) :=
  records ← _prepare_records df;
  mapM (relationship_of_row kw) records.

(** The [Covariate(...)] expression of [read_covariates]. *)
Definition covariate_of_row (kw : Covariates.kwargs) (row : Row)
  : Result Covariate.t :=
  id ← to_str row (Some (Covariates.id_col kw));
  short_id ← short_id_of row (Covariates.short_id_col kw);
  subject_id ← to_str row (Some (Covariates.subject_col kw));
  covariate_type ←
    (if truthy_col (Covariates.covariate_type_col kw)
     then to_str row (Covariates.covariate_type_col kw)
     else mret "claim");
  text_unit_ids ←
    to_optional_list row (Covariates.text_unit_ids_col kw) (Some py_str_t);
  mret {| Covariate.id := id;
          Covariate.short_id := short_id;
          Covariate.subject_id := subject_id;
          Covariate.covariate_type := covariate_type;
          Covariate.text_unit_ids := text_unit_ids;
          Covariate.attributes :=
            attributes_dict row (Covariates.attributes_cols kw) |}.

Definition read_covariates (df : DataFrame) (kw : Covariates.kwargs)
  : Result (list Covariate.t) :=
  records ← _prepare_records df;
  mapM (covariate_of_row kw) records.

(** The [Community(...)] expression of [read_communities]. *)
Definition community_of_row (kw : Communities.kwargs) (row : Row)
  : Result Community.t :=
  id ← to_str row (Some (Communities.id_col kw));
  short_id ← short_id_of row (Communities.short_id_col kw);
  title ← to_str row (Some (Communities.title_col kw));
  level ← to_str row (Some (Communities.level_col kw));
  entity_ids ←
    to_optional_list row (Communities.entities_col kw) (Some py_str_t);
  relationship_ids ←
    to_optional_list row (Communities.relationships_col kw) (Some py_str_t);
  covariate_ids ←
    to_optional_dict row (Communities.covariates_col kw)
      (Some py_str_t) (Some py_str_t);
  parent ← to_str row (Communities.parent_col kw);
  children ← to_list row (Communities.children_col kw) None;
  mret {| Community.id := id;
          Community.short_id := short_id;
          Community.title := title;
          Community.level := level;
          Community.entity_ids := entity_ids;
          Community.relationship_ids := relationship_ids;
          Community.covariate_ids := covariate_ids;
          Community.parent := parent;
          Community.children := children;
          Community.attributes :=
            attributes_dict row (Communities.attributes_cols kw) |}.

Definition read_communities (df : DataFrame) (kw : Communities.kwargs)
  : Result (list Community.t) :=
  records ← _prepare_records df;
  mapM (community_of_row kw) records.

(** The [CommunityReport(...)] expression of [read_community_reports]. *)
Definition community_report_of_row (kw : CommunityReports.kwargs) (row : Row)
  : Result CommunityReport.t :=
  id ← to_str row (Some (CommunityReports.id_col kw));
  short_id ← short_id_of row (CommunityReports.short_id_col kw);
  title ← to_str row (Some (CommunityReports.title_col kw));
  community_id ← to_str row (Some (CommunityReports.community_col kw));
  summary ← to_str row (Some (CommunityReports.summary_col kw));
  full_content ← to_str row (Some (CommunityReports.content_col kw));
  rank ← to_optional_float row (CommunityReports.rank_col kw);
  full_content_embedding ←
    to_optional_list row (CommunityReports.content_embedding_col kw)
      (Some py_float_t);
  mret {| CommunityReport.id := id;
          CommunityReport.short_id := short_id;
          CommunityReport.title := title;
          CommunityReport.community_id := community_id;
          CommunityReport.summary := summary;
          CommunityReport.full_content := full_content;
          CommunityReport.rank := rank;
          CommunityReport.full_content_embedding := full_content_embedding;
          CommunityReport.attributes :=
            attributes_dict row (CommunityReports.attributes_cols kw) |}.

Definition read_community_reports
    (df : DataFrame) (kw : CommunityReports.kwargs)
  : Result (list CommunityReport.t) :=
  records ← _prepare_records df;
  mapM (community_report_of_row kw) records.

(** The [TextUnit(...)] expression of [read_text_units]. *)
Definition text_unit_of_row (kw : TextUnits.kwargs) (row : Row)
  : Result TextUnit.t :=
  id ← to_str row (Some (TextUnits.id_col kw));
  short_id ← index_str row;
  text ← to_str row (Some (TextUnits.text_col kw));
  entity_ids ←
    to_optional_list row (TextUnits.entities_col kw) (Some py_str_t);
  relationship_ids ←
    to_optional_list row (TextUnits.relationships_col kw) (Some py_str_t);
  covariate_ids ←
    to_optional_dict row (TextUnits.covariates_col kw)
      (Some py_str_t) (Some py_str_t);
  n_tokens ← to_optional_int row (TextUnits.tokens_col kw);
  document_ids ←
    to_optional_list row (TextUnits.document_ids_col kw) (Some py_str_t);
  mret {| TextUnit.id := id;
          TextUnit.short_id := Some short_id;
          TextUnit.text := text;
          TextUnit.entity_ids := entity_ids;
          TextUnit.relationship_ids := relationship_ids;
          TextUnit.covariate_ids := covariate_ids;
          TextUnit.n_tokens := n_tokens;
          TextUnit.document_ids := document_ids;
          TextUnit.attributes :=
            attributes_dict row (TextUnits.attributes_cols kw) |}.

Definition read_text_units (df : DataFrame) (kw : TextUnits.kwargs)
  : Result (list TextUnit.t) :=
  records ← _prepare_records df;
  mapM (text_unit_of_row kw) records.

End loaders.

(** ** loaders/utils.py, from its specification

    [utils.py] is not part of the sources at hand; the definitions of this
    module follow the coercion contracts of the specification (section 4.1,
    step 3 and 4, and the data model's notes on defaults). *)
Module utils.
Section utils.
Context `{!PyBuiltins}.

(** [float(n)] for an integer: round to nearest even; beyond the
    largest finite double Python raises [OverflowError]. *)
Definition float_of_int (n : Z) : option float :=
  match binary_normalize 53 1024 n 0 false with
  | S754_infinity _ => None
  | f => Some f
  end.

(** [int(x)] for a float: truncation towards zero; none for an
    infinity or a NaN. *)
Definition int_of_float (f : float) : option Z :=
  match f with
  | S754_zero _ => Some 0%Z
  | S754_finite s m e =>
      let a := Z.shiftl (Z.pos m) e in
      Some (if s then (- a)%Z else a)
  | _ => None
  end.

(** Modelled from the spec: the numeric reading of a cell bound to an
    int field ("numerically converts the cell value ... cannot be
    interpreted as a number"); which texts are numeric is left to
    [int_of_text]. *)
Definition as_int (v : Value) : option Z :=
  match v with
  | VInt n => Some n
  | VBool b => Some (if b then 1 else 0)%Z
  | VFloat f => int_of_float f
  | VStr s => int_of_text s
  | _ => None
  end.

(** Modelled from the spec: the numeric reading of a cell bound to a
    float field; which texts are numeric is left to [float_of_text]. *)
Definition as_float (v : Value) : option float :=
  match v with
  | VFloat f => Some f
  | VInt n => float_of_int n
  | VBool b => float_of_int (if b then 1 else 0)%Z
  | VStr s => float_of_text s
  | _ => None
  end.

(** Modelled from the spec: the "absence conditions" shared by the
    optional coercions: the column is unbound, the column is absent from
    the row mapping, or the cell is null.  [present row col] is the cell
    when none of them holds. *)
Definition present (row : Row) (col : option string) : option Value :=
  c ← col;
  v ← row !! c;
  match v with VNone => None | _ => Some v end.

(** Modelled from the spec: coercion of one element of a sequence or
    mapping to the declared type; no declared type passes the element
    through. *)
Definition coerce (ty : option PyType) (v : Value) : Result Value :=
  match ty with
  | None => Ok v
  | Some py_str_t =>
      match v with VNone => Raise CoercionError | _ => Ok (VStr (str v)) end
  | Some py_float_t =>
      match as_float v with
      | Some f => Ok (VFloat f)
      | None => Raise CoercionError
      end
  | Some py_int_t =>
      match as_int v with
      | Some n => Ok (VInt n)
      | None => Raise CoercionError
      end
  end.

(** Modelled from the spec: required string, [utils.to_str].  "The cell
    value is converted to its textual representation; fails with
    MissingColumnError if the bound column is absent from the row mapping,
    and with CoercionError if the cell value is null."  A null binding names
    no column of the row mapping and fails the same way. *)
Definition to_str (row : Row) (col : option string) : Result string :=
  match col with
  | None => Raise MissingColumnError
  | Some c =>
      match row !! c with
      | None => Raise MissingColumnError
      | Some VNone => Raise CoercionError
      | Some v => Ok (str v)
      end
  end.

(** Modelled from the spec: optional string, [utils.to_optional_str].
    "Same as required string but returns null when the column is unbound,
    the column is absent, or the cell value is null." *)
Definition to_optional_str (row : Row) (col : option string)
  : Result (option string) :=
  Ok (str <$> present row col).

(** Modelled from the spec: optional int, [utils.to_optional_int].  Null
    under the absence conditions, else the numeric conversion, which fails
    with CoercionError. *)
Definition to_optional_int (row : Row) (col : option string)
  : Result (option Z) :=
  match present row col with
  | None => Ok None
  | Some v =>
      match as_int v with
      | Some n => Ok (Some n)
      | None => Raise CoercionError
      end
  end.

(** Modelled from the spec: optional float, [utils.to_optional_float]. *)
Definition to_optional_float (row : Row) (col : option string)
  : Result (option float) :=
  match present row col with
  | None => Ok None
  | Some v =>
      match as_float v with
      | Some f => Ok (Some f)
      | None => Raise CoercionError
      end
  end.

(** Modelled from the spec: optional list, [utils.to_optional_list].
    Null under the absence conditions; a sequence has each element coerced
    to [item_type], in order; anything else is wrapped into a
    single-element sequence, which is not an error path. *)
Definition to_optional_list
    (row : Row) (col : option string) (item_type : option PyType)
  : Result (option (list Value)) :=
  match present row col with
  | None => Ok None
  | Some (VList items) => Some <$> mapM (coerce item_type) items
  | Some v => Ok (Some [v])
  end.

(** Modelled from the spec: the list coercion behind [children],
    [utils.to_list]: "list, defaults to empty list if column absent", and
    the empty list for a "no column" binding; otherwise as the optional
    list. *)
Definition to_list
    (row : Row) (col : option string) (item_type : option PyType)
  : Result (list Value) :=
  default [] <$> to_optional_list row col item_type.

(** Modelled from the spec: optional mapping, [utils.to_optional_dict].
    Null under the absence conditions; a mapping has its keys and values
    coerced to the declared types; any other cell cannot be converted. *)
Definition to_optional_dict
    (row : Row) (col : option string) (key_type value_type : option PyType)
  : Result (option (list (Value * Value))) :=
  match present row col with
  | None => Ok None
  | Some (VDict items) =>
      Some <$> mapM (λ kv, k ← coerce key_type kv.1;
                           v ← coerce value_type kv.2;
                           mret (k, v)) items
  | Some _ => Raise CoercionError
  end.

End utils.
End utils.

(** The specification's helpers as an implementation of the interface. *)
Definition spec_coercions `{!PyBuiltins} : Coercions := {|
  to_str := utils.to_str;
  to_optional_str := utils.to_optional_str;
  to_list := utils.to_list;
  to_optional_list := utils.to_optional_list;
  to_optional_int := utils.to_optional_int;
  to_optional_float := utils.to_optional_float;
  to_optional_dict := utils.to_optional_dict;
|}.

(** ** An interpreter to run examples on *)

(** Reads optionally signed runs of decimal digits as integers, and as the
    floats of those integers; the examples below hold no float, container
    or numeric text whose [str] is asked for. *)
Definition decimal_of_text (s : string) : option Z :=
  Z.of_int <$> NilZero.int_of_string s.

Definition decimal_builtins : PyBuiltins := {|
  repr_other := λ _, "<object>";
  int_of_text := decimal_of_text;
  float_of_text := λ s, decimal_of_text s ≫= utils.float_of_int;
|}.

(** ** The prepared records of a frame *)

(** The column labels of [df.reset_index().rename(columns={"index":
    "Index"})], when the reset succeeds. *)
Definition record_columns (df : DataFrame) : list string :=
  (λ c, if String.eqb c "index" then "Index" else c)
    <$> (reset_label df :: columns df).

(** The record [_prepare_records] makes of one row. *)
Definition record_of (df : DataFrame) (r : Value * list Value) : Row :=
  dict_of_zip (record_columns df) (r.1 :: r.2).


(** ** What the claims speak of *)

(** [objs] holds one object per row of [df], the i-th being what the row
    expression [of_row] yields on the record of the i-th row. *)
Definition row_by_row {A} (of_row : Row → Result A)
    (df : DataFrame) (objs : list A) : Prop :=
  length objs = length (rows df) ∧
  ∀ (i : nat) r, rows df !! i = Some r →
    ∃ o, objs !! i = Some o ∧ of_row (record_of df r) = Ok o.

(** The i-th short id is the [str] of the ["Index"] entry of the i-th
    row's record. *)
Definition short_ids_from_index `{!PyBuiltins}
    (df : DataFrame) (short_ids : list (option string)) : Prop :=
  ∀ (i : nat) r, rows df !! i = Some r →
    ∃ v, record_of df r !! "Index" = Some v ∧
         short_ids !! i = Some (Some (str v)).

(** The i-th short id is the decimal numeral of [i]. *)
Definition short_ids_are_positions
    (df : DataFrame) (short_ids : list (option string)) : Prop :=
  ∀ i : nat, (i < length (rows df))%nat →
    short_ids !! i = Some (Some (pretty (Z.of_nat i))).

(** The frame has no column that would shadow or rename into the
    ["Index"] entry of its records. *)
Definition no_index_column (df : DataFrame) : Prop :=
  ("index" ∉ columns df) ∧ ("Index" ∉ columns df).

(** The i-th attributes mapping has exactly the keys [cols]; the value
    at a key is [row.get] of it on the i-th row's record, which is [None]
    for a key that is no column of the prepared frame and, the column
    labels of that frame being distinct, the row's cell in the column of
    that label. *)
Definition attributes_passthrough
    (df : DataFrame) (cols : list string) (attrs : list (option Row)) : Prop :=
  ∀ (i : nat) r, rows df !! i = Some r →
    ∃ m : Row, attrs !! i = Some (Some m) ∧
      (∀ c, m !! c
            = if decide (c ∈ cols) then Some (get (record_of df r) c)
              else None) ∧
      (∀ c, c ∈ cols → c ∉ record_columns df → m !! c = Some VNone) ∧
      (∀ c (j : nat) v,
         c ∈ cols → NoDup (record_columns df) →
         record_columns df !! j = Some c → (r.1 :: r.2) !! j = Some v →
         m !! c = Some v).

(** The binding names no column of the row: it is null, or the row has no
    such key. *)
Definition unbound_or_absent (row : Row) (col : option string) : Prop :=
  match col with
  | Some c => row !! c = None
  | None => True
  end.

(** [read_covariates]' defaults with [covariate_type_col=None]. *)
Definition covariates_untyped : Covariates.kwargs := {|
  Covariates.id_col := "id";
  Covariates.short_id_col := Some "human_readable_id";
  Covariates.subject_col := "subject_id";
  Covariates.covariate_type_col := None;
  Covariates.text_unit_ids_col := Some "text_unit_ids";
  Covariates.attributes_cols := None;
|}.

(** ** The calls of a row expression *)

(** One keyword argument of a row expression that can raise: the call of a
    helper with the binding it is given, or the lookup
    [str(row["Index"])]. *)
Inductive Step :=
  | call_to_str (col : option string)
  | call_to_optional_str (col : option string)
  | call_to_optional_int (col : option string)
  | call_to_optional_float (col : option string)
  | call_to_optional_list (col : option string) (item_type : option PyType)
  | call_to_list (col : option string) (item_type : option PyType)
  | call_to_optional_dict
      (col : option string) (key_type value_type : option PyType)
  | lookup_Index.

(** The binding a helper is called with. *)
Definition binding (s : Step) : option string :=
  match s with
  | call_to_str col | call_to_optional_str col | call_to_optional_int col
  | call_to_optional_float col | call_to_optional_list col _
  | call_to_list col _ | call_to_optional_dict col _ _ => col
  | lookup_Index => None
  end.

(** What a computation raises, if it does. *)
Definition failure {A} (m : Result A) : option Error :=
  match m with
  | Ok _ => None
  | Raise e => Some e
  end.

(** [short_id=to_optional_str(row, short_id_col) if short_id_col else
    str(row["Index"])]: which of the two is evaluated. *)
Definition short_id_step (short_id_col : option string) : Step :=
  if truthy_col short_id_col then call_to_optional_str short_id_col
  else lookup_Index.

(** The calls of each row expression, in the order Python evaluates the
    keyword arguments: left to right, as written. *)
Definition entity_steps (kw : Entities.kwargs) : list Step :=
  [call_to_str (Some (Entities.id_col kw));
   short_id_step (Entities.short_id_col kw);
   call_to_str (Some (Entities.title_col kw));
   call_to_optional_str (Entities.type_col kw);
   call_to_optional_str (Entities.description_col kw);
   call_to_optional_list (Entities.name_embedding_col kw) (Some py_float_t);
   call_to_optional_list (Entities.description_embedding_col kw)
     (Some py_float_t);
   call_to_optional_list (Entities.community_col kw) (Some py_str_t);
   call_to_optional_list (Entities.text_unit_ids_col kw) None;
   call_to_optional_int (Entities.rank_col kw)].

Definition relationship_steps (kw : Relationships.kwargs) : list Step :=
  [call_to_str (Some (Relationships.id_col kw));
   short_id_step (Relationships.short_id_col kw);
   call_to_str (Some (Relationships.source_col kw));
   call_to_str (Some (Relationships.target_col kw));
   call_to_optional_str (Relationships.description_col kw);
   call_to_optional_list (Relationships.description_embedding_col kw)
     (Some py_float_t);
   call_to_optional_float (Relationships.weight_col kw);
   call_to_optional_list (Relationships.text_unit_ids_col kw) (Some py_str_t);
   call_to_optional_int (Relationships.rank_col kw)].

(** [covariate_type] calls [to_str] only when [covariate_type_col] is
    truthy. *)
Definition covariate_steps (kw : Covariates.kwargs) : list Step :=
  [call_to_str (Some (Covariates.id_col kw));
   short_id_step (Covariates.short_id_col kw);
   call_to_str (Some (Covariates.subject_col kw))]
  ++ (if truthy_col (Covariates.covariate_type_col kw)
      then [call_to_str (Covariates.covariate_type_col kw)] else [])
  ++ [call_to_optional_list (Covariates.text_unit_ids_col kw)
        (Some py_str_t)].

Definition community_steps (kw : Communities.kwargs) : list Step :=
  [call_to_str (Some (Communities.id_col kw));
   short_id_step (Communities.short_id_col kw);
   call_to_str (Some (Communities.title_col kw));
   call_to_str (Some (Communities.level_col kw));
   call_to_optional_list (Communities.entities_col kw) (Some py_str_t);
   call_to_optional_list (Communities.relationships_col kw) (Some py_str_t);
   call_to_optional_dict (Communities.covariates_col kw)
     (Some py_str_t) (Some py_str_t);
   call_to_str (Communities.parent_col kw);
   call_to_list (Communities.children_col kw) None].

Definition community_report_steps (kw : CommunityReports.kwargs)
  : list Step :=
  [call_to_str (Some (CommunityReports.id_col kw));
   short_id_step (CommunityReports.short_id_col kw);
   call_to_str (Some (CommunityReports.title_col kw));
   call_to_str (Some (CommunityReports.community_col kw));
   call_to_str (Some (CommunityReports.summary_col kw));
   call_to_str (Some (CommunityReports.content_col kw));
   call_to_optional_float (CommunityReports.rank_col kw);
   call_to_optional_list (CommunityReports.content_embedding_col kw)
     (Some py_float_t)].

Definition text_unit_steps (kw : TextUnits.kwargs) : list Step :=
  [call_to_str (Some (TextUnits.id_col kw));
   lookup_Index;
   call_to_str (Some (TextUnits.text_col kw));
   call_to_optional_list (TextUnits.entities_col kw) (Some py_str_t);
   call_to_optional_list (TextUnits.relationships_col kw) (Some py_str_t);
   call_to_optional_dict (TextUnits.covariates_col kw)
     (Some py_str_t) (Some py_str_t);
   call_to_optional_int (TextUnits.tokens_col kw);
   call_to_optional_list (TextUnits.document_ids_col kw) (Some py_str_t)].

Section steps.
Context `{!PyBuiltins, !Coercions}.

(** What a call raises on a row, if it does. *)
Definition step_failure (s : Step) (row : Row) : option Error :=
  match s with
  | call_to_str col => failure (to_str row col)
  | call_to_optional_str col => failure (to_optional_str row col)
  | call_to_optional_int col => failure (to_optional_int row col)
  | call_to_optional_float col => failure (to_optional_float row col)
  | call_to_optional_list col item_type =>
      failure (to_optional_list row col item_type)
  | call_to_list col item_type => failure (to_list row col item_type)
  | call_to_optional_dict col key_type value_type =>
      failure (to_optional_dict row col key_type value_type)
  | lookup_Index => failure (index_str row)
  end.

(** What the first failing call of a sequence raises on a row. *)
Fixpoint steps_failure (steps : list Step) (row : Row) : option Error :=
  match steps with
  | [] => None
  | s :: rest =>
      match step_failure s row with
      | Some e => Some e
      | None => steps_failure rest row
      end
  end.

(** A load of [df] whose row expression makes the calls [steps] gets as
    far as call [j] of row [i]: the index reset succeeds, no call fails on an
    earlier row, and no earlier call fails on this row, whose call [j] is
    [s]. *)
Definition reaches (steps : list Step) (df : DataFrame)
    (i j : nat) (r : Value * list Value) (s : Step) : Prop :=
  (reset_label df ∉ columns df) ∧
  rows df !! i = Some r ∧
  (∀ (i' : nat) r', (i' < i)%nat → rows df !! i' = Some r' →
     steps_failure steps (record_of df r') = None) ∧
  steps !! j = Some s ∧
  (∀ (j' : nat) s', (j' < j)%nat → steps !! j' = Some s' →
     step_failure s' (record_of df r) = None).

(** The first call to fail in a load is a required-string coercion whose
    binding names no column of the row. *)
Definition missing_column (steps : list Step) (df : DataFrame) : Prop :=
  ∃ (i j : nat) r col,
    reaches steps df i j r (call_to_str col) ∧
    unbound_or_absent (record_of df r) col.

End steps.

(** Modelled from the spec: the cells that cannot be converted to the type
    of the field a call produces (section 4.1, step 3).  A null cell for a
    required string; for an int or a float field a cell, not null, that
    cannot be interpreted as a number; for a list field a sequence with an
    element that cannot be coerced to the item type; for a mapping field a
    cell, not null, that is no mapping, or a mapping with a key or a value
    that cannot be coerced.  An optional string converts every cell. *)
Definition cannot_convert `{!PyBuiltins} (s : Step) (v : Value) : bool :=
  match s with
  | call_to_str _ => match v with VNone => true | _ => false end
  | call_to_optional_str _ => false
  | call_to_optional_int _ =>
      match v with
      | VNone => false
      | _ => bool_decide (utils.as_int v = None)
      end
  | call_to_optional_float _ =>
      match v with
      | VNone => false
      | _ => bool_decide (utils.as_float v = None)
      end
  | call_to_optional_list _ item_type | call_to_list _ item_type =>
      match v with
      | VList items => existsb (λ x, raises (utils.coerce item_type x)) items
      | _ => false
      end
  | call_to_optional_dict _ key_type value_type =>
      match v with
      | VNone => false
      | VDict items =>
          existsb (λ kv, raises (utils.coerce key_type kv.1)
                         || raises (utils.coerce value_type kv.2)) items
      | _ => true
      end
  | lookup_Index => false
  end.

(** The first call to fail in a load is bound to a column under which the
    row has a cell that cannot be converted. *)
Definition unconvertible_cell `{!PyBuiltins, !Coercions}
    (steps : list Step) (df : DataFrame) : Prop :=
  ∃ (i j : nat) r s c v,
    reaches steps df i j r s ∧ binding s = Some c ∧
    record_of df r !! c = Some v ∧ cannot_convert s v = true.

(** The two exceptions of the coercions and where a load [m] gets them
    from. *)
Definition error_sources `{!PyBuiltins, !Coercions} {A}
    (m : Result A) (steps : list Step) (df : DataFrame) : Prop :=
  (m = Raise MissingColumnError ↔ missing_column steps df) ∧
  (m = Raise CoercionError ↔ unconvertible_cell steps df).

(** ** Short ids *)

(** The i-th short id is the [str] of the i-th row's index label. *)
Definition short_ids_are_labels `{!PyBuiltins}
    (df : DataFrame) (short_ids : list (option string)) : Prop :=
  ∀ (i : nat) r, rows df !! i = Some r →
    short_ids !! i = Some (Some (str r.1)).

(** The i-th short id is what [to_optional_str] returns for the binding
    [col] on the i-th row's record. *)
Definition short_ids_from_column `{!Coercions}
    (df : DataFrame) (col : option string) (short_ids : list (option string))
  : Prop :=
  ∀ (i : nat) r, rows df !! i = Some r →
    ∃ s, short_ids !! i = Some s ∧
         to_optional_str (record_of df r) col = Ok s.

Section short_id_sources.
Context `{!PyBuiltins, !Coercions}.

(** [P] holds of the short ids of every successful load of [df] that takes
    the fallback: by a loader called with [short_id_col] unbound ([None] or
    the empty string), and by [read_text_units], which has no such
    binding. *)
Definition fallback_loads
    (df : DataFrame) (P : list (option string) → Prop) : Prop :=
  (∀ kw objs, truthy_col (Entities.short_id_col kw) = false →
     read_entities df kw = Ok objs → P (Entity.short_id <$> objs)) ∧
  (∀ kw objs, truthy_col (Relationships.short_id_col kw) = false →
     read_relationships df kw = Ok objs →
     P (Relationship.short_id <$> objs)) ∧
  (∀ kw objs, truthy_col (Covariates.short_id_col kw) = false →
     read_covariates df kw = Ok objs → P (Covariate.short_id <$> objs)) ∧
  (∀ kw objs, truthy_col (Communities.short_id_col kw) = false →
     read_communities df kw = Ok objs → P (Community.short_id <$> objs)) ∧
  (∀ kw objs, truthy_col (CommunityReports.short_id_col kw) = false →
     read_community_reports df kw = Ok objs →
     P (CommunityReport.short_id <$> objs)) ∧
  (∀ kw objs, read_text_units df kw = Ok objs →
     P (TextUnit.short_id <$> objs)).

(** In every successful load of [df] by a loader called with a
    [short_id_col], the short ids are what [to_optional_str] returns for that
    column: the fallback plays no part. *)
Definition configured_loads (df : DataFrame) : Prop :=
  (∀ kw objs, truthy_col (Entities.short_id_col kw) = true →
     read_entities df kw = Ok objs →
     short_ids_from_column df (Entities.short_id_col kw)
       (Entity.short_id <$> objs)) ∧
  (∀ kw objs, truthy_col (Relationships.short_id_col kw) = true →
     read_relationships df kw = Ok objs →
     short_ids_from_column df (Relationships.short_id_col kw)
       (Relationship.short_id <$> objs)) ∧
  (∀ kw objs, truthy_col (Covariates.short_id_col kw) = true →
     read_covariates df kw = Ok objs →
     short_ids_from_column df (Covariates.short_id_col kw)
       (Covariate.short_id <$> objs)) ∧
  (∀ kw objs, truthy_col (Communities.short_id_col kw) = true →
     read_communities df kw = Ok objs →
     short_ids_from_column df (Communities.short_id_col kw)
       (Community.short_id <$> objs)) ∧
  (∀ kw objs, truthy_col (CommunityReports.short_id_col kw) = true →
     read_community_reports df kw = Ok objs →
     short_ids_from_column df (CommunityReports.short_id_col kw)
       (CommunityReport.short_id <$> objs)).

End short_id_sources.

(** ** Bindings of [text_unit_ids] *)



(** ** Example tables *)

(** One field of every object of a load. *)
Definition fields {A B} (f : A → B) (m : Result (list A)) : Result (list B) :=
  match m with
  | Ok objs => Ok (f <$> objs)
  | Raise e => Raise e
  end.

(** The specification's entity table: columns [id, title], two rows, the
    index pandas gives by default. *)
Definition entities_frame : DataFrame := {|
  index_name := None;
  columns := ["id"; "title"];
  rows := [(VInt 0, [VStr "e1"; VStr "Alpha"]);
           (VInt 1, [VStr "e2"; VStr "Beta"])];
|}.

(** The same rows as they are left by a filter that kept rows 5 and 7 of a
    larger table. *)
Definition filtered_frame : DataFrame := {|
  index_name := None;
  columns := ["id"; "title"];
  rows := [(VInt 5, [VStr "e1"; VStr "Alpha"]);
           (VInt 7, [VStr "e2"; VStr "Beta"])];
|}.

(** [read_entities] with only [id] and [title] bound. *)
Definition entities_bare (attributes_cols : option (list string))
  : Entities.kwargs := {|
  Entities.id_col := "id";
  Entities.short_id_col := None;
  Entities.title_col := "title";
  Entities.type_col := None;
  Entities.description_col := None;
  Entities.name_embedding_col := None;
  Entities.description_embedding_col := None;
  Entities.community_col := None;
  Entities.text_unit_ids_col := None;
  Entities.rank_col := None;
  Entities.attributes_cols := attributes_cols;
|}.


(** A covariate table with columns [id, subject_id] and no [type]. *)
Definition covariates_frame : DataFrame := {|
  index_name := None;
  columns := ["id"; "subject_id"];
  rows := [(VInt 0, [VStr "c1"; VStr "e1"]);
           (VInt 1, [VStr "c2"; VStr "e2"])];
|}.

(** A relationship table without a [source] column, with one row and with
    none. *)
Definition relationships_frame : DataFrame := {|
  index_name := None;
  columns := ["id"; "target"];
  rows := [(VInt 0, [VStr "r1"; VStr "e2"])];
|}.

Definition relationships_empty : DataFrame := {|
  index_name := None;
  columns := ["id"; "target"];
  rows := [];
|}.

(** A community table with a [parent] but no [children] column, and one
    with neither. *)
Definition communities_frame : DataFrame := {|
  index_name := None;
  columns := ["id"; "title"; "level"; "parent"];
  rows := [(VInt 0, [VStr "c0"; VStr "Community 0"; VInt 0; VInt (-1)])];
|}.

Definition communities_orphan_frame : DataFrame := {|
  index_name := None;
  columns := ["id"; "title"; "level"];
  rows := [(VInt 0, [VStr "c0"; VStr "Community 0"; VInt 0])];
|}.

(** A text unit table, with the default index and filtered. *)
Definition text_units_frame : DataFrame := {|
  index_name := None;
  columns := ["id"; "text"];
  rows := [(VInt 0, [VStr "t1"; VStr "first"]);
           (VInt 1, [VStr "t2"; VStr "second"])];
|}.

Definition text_units_filtered_frame : DataFrame := {|
  index_name := None;
  columns := ["id"; "text"];
  rows := [(VInt 5, [VStr "t1"; VStr "first"])];
|}.

(** A table without rows whose index carries the name of its column, as
    [df.set_index("id", drop=False)] leaves it. *)
Definition named_index_frame : DataFrame := {|
  index_name := Some "id";
  columns := ["id"];
  rows := [];
|}.

(** ** Frames that share a schema *)

(** The frame [df] with the rows [l] in place of its own: the same index
    name and columns. *)
Definition with_rows (df : DataFrame) (l : list (Value * list Value))
  : DataFrame :=
  {| index_name := index_name df; columns := columns df; rows := l |}.

(** The row expression [of_row] raises [e] on the record of a row of the
    frame and raises nothing on the rows before it. *)
Definition first_failure {A} (of_row : Row → Result A)
    (df : DataFrame) (e : Error) : Prop :=
  ∃ (i : nat) r,
    rows df !! i = Some r ∧ of_row (record_of df r) = Raise e ∧
    ∀ (j : nat) r', (j < i)%nat → rows df !! j = Some r' →
      raises (of_row (record_of df r')) = false.

(** A text unit table with a column of its own called ["Index"]. *)
Definition text_units_Index_frame : DataFrame := {|
  index_name := None;
  columns := ["id"; "text"; "Index"];
  rows := [(VInt 0, [VStr "t1"; VStr "first"; VStr "a-7"]);
           (VInt 1, [VStr "t2"; VStr "second"; VStr "b-2"])];
|}.

(** A text unit table whose index is named, as [df.set_index("chunk")]
    leaves it. *)
Definition text_units_named_frame : DataFrame := {|
  index_name := Some "chunk";
  columns := ["id"; "text"];
  rows := [(VInt 0, [VStr "t1"; VStr "first"])];
|}.

(** A text unit table whose second row has a null [id]. *)
Definition text_units_null_frame : DataFrame := {|
  index_name := None;
  columns := ["id"; "text"];
  rows := [(VInt 0, [VStr "t1"; VStr "first"]);
           (VInt 1, [VNone; VStr "second"]);
           (VInt 2, [VStr "t3"])];
|}.


(** An entity table whose second row has text where [degree] wants a
    number. *)
Definition entities_rank_frame : DataFrame := {|
  index_name := None;
  columns := ["id"; "title"; "degree"];
  rows := [(VInt 0, [VStr "e1"; VStr "Alpha"; VInt 3]);
           (VInt 1, [VStr "e2"; VStr "Beta"; VStr "high"])];
|}.

(** An entity table with a [human_readable_id] column. *)
Definition entities_numbered_frame : DataFrame := {|
  index_name := None;
  columns := ["id"; "title"; "human_readable_id"];
  rows := [(VInt 0, [VStr "e1"; VStr "Alpha"; VInt 10]);
           (VInt 1, [VStr "e2"; VStr "Beta"; VInt 11])];
|}.

(** * Properties *)

(** ** Results *)

Lemma bind_Ok_inv {A B} (m : Result A) (k : A → Result B) (b : B) :
  m ≫= k = Ok b → ∃ a, m = Ok a ∧ k a = Ok b.
Proof. destruct m as [a|e]; [eauto | discriminate]. Qed.

Lemma fmap_Ok_inv {A B} (f : A → B) (m : Result A) (b : B) :
  f <$> m = Ok b → ∃ a, m = Ok a ∧ b = f a.
Proof. destruct m as [a|e]; [|discriminate]. intros [= <-]. eauto. Qed.

Lemma bind_Raise_inv {A B} (m : Result A) (k : A → Result B) (e : Error) :
  m ≫= k = Raise e → m = Raise e ∨ ∃ a, m = Ok a ∧ k a = Raise e.
Proof. destruct m as [a|e']; [eauto | intros [= ->]; eauto]. Qed.

Lemma bind_raises {A B} (m : Result A) (k : A → Result B) :
  (∀ a, raises (k a) = true) → raises (m ≫= k) = true.
Proof. intros Hk. destruct m as [a|e]; [apply Hk | done]. Qed.

Lemma raises_true {A} (m : Result A) : raises m = true ↔ ∃ e, m = Raise e.
Proof.
  destruct m as [a|e]; split; try done; eauto.
  intros [e' [=]].
Qed.

(** *** The comprehension [[f(row) for row in records]] *)

Lemma mapM_Ok {A B} (f : A → Result B) (l : list A) (k : list B) :
  mapM f l = Ok k ↔ Forall2 (λ x y, f x = Ok y) l k.
Proof.
  split.
  - revert k. induction l as [|x l IH]; intros k Hk.
    + injection Hk as <-. constructor.
    + apply bind_Ok_inv in Hk as (y & Hy & Hk).
      apply bind_Ok_inv in Hk as (k' & Hk' & Hk).
      injection Hk as <-. constructor; auto.
  - induction 1 as [|x y l k Hxy _ IH]; [done|].
    change (mapM f (x :: l)) with (y ← f x; k ← mapM f l; mret (y :: k)).
    rewrite Hxy. simpl. rewrite IH. done.
Qed.

Lemma mapM_raises {A B} (f : A → Result B) (l : list A) (x : A) :
  x ∈ l → raises (f x) = true → raises (mapM f l) = true.
Proof.
  intros Hx Hfx. induction l as [|y l IH]; [by apply elem_of_nil in Hx|].
  change (mapM f (y :: l)) with (z ← f y; k ← mapM f l; mret (z :: k)).
  apply elem_of_cons in Hx as [<-|Hx].
  - destruct (f x); done.
  - destruct (f y); [|done]. simpl. destruct (mapM f l); [|done].
    by apply IH.
Qed.

(** The exception of a comprehension is that of its first failing row. *)
Lemma mapM_Raise {A B} (f : A → Result B) (l : list A) (e : Error) :
  mapM f l = Raise e →
  ∃ (i : nat) x, l !! i = Some x ∧ f x = Raise e ∧
    ∀ (j : nat) y, (j < i)%nat → l !! j = Some y → raises (f y) = false.
Proof.
  induction l as [|x l IH]; [discriminate|].
  change (mapM f (x :: l)) with (z ← f x; k ← mapM f l; mret (z :: k)).
  intros [Hx|(z & Hz & Hl)]%bind_Raise_inv.
  - exists 0%nat, x. split_and!; [done..|]. intros j y Hj. lia.
  - apply bind_Raise_inv in Hl as [Hl|(k & _ & [=])].
    destruct (IH Hl) as (i & y & Hi & Hy & Hbefore).
    exists (S i), y. split_and!; [done..|].
    intros [|j] y' Hj Hy'.
    + injection Hy' as <-. by rewrite Hz.
    + apply (Hbefore j); [lia|done].
Qed.

(** ** Dictionaries *)

Lemma dict_of_zip_acc_absent (keys : list string) (cells : list Value)
    (d : Row) (k : string) :
  k ∉ keys →
  foldl (λ d kv, <[kv.1 := kv.2]> d) d (zip keys cells) !! k = d !! k.
Proof.
  revert cells d. induction keys as [|k' keys IH]; intros cells d Hk; [done|].
  destruct cells as [|v cells]; [done|]. simpl.
  apply not_elem_of_cons in Hk as [Hne Hk].
  rewrite IH by done. by rewrite lookup_insert_ne.
Qed.

Lemma dict_of_zip_absent (keys : list string) (cells : list Value)
    (k : string) :
  k ∉ keys → dict_of_zip keys cells !! k = None.
Proof. intros Hk. unfold dict_of_zip. by rewrite dict_of_zip_acc_absent. Qed.

Lemma dict_of_zip_head (keys : list string) (cells : list Value)
    (k : string) (v : Value) :
  k ∉ keys → dict_of_zip (k :: keys) (v :: cells) !! k = Some v.
Proof.
  intros Hk. unfold dict_of_zip. simpl.
  rewrite dict_of_zip_acc_absent by done. apply lookup_insert_eq.
Qed.

Lemma dict_of_zip_acc_lookup (keys : list string) (cells : list Value)
    (d : Row) (j : nat) (k : string) (v : Value) :
  NoDup keys → keys !! j = Some k → cells !! j = Some v →
  foldl (λ d kv, <[kv.1 := kv.2]> d) d (zip keys cells) !! k = Some v.
Proof.
  revert cells d j.
  induction keys as [|k' keys IH]; intros cells d j Hnodup Hk Hv; [done|].
  apply NoDup_cons in Hnodup as [Hk' Hnodup].
  destruct cells as [|v' cells]; [done|]. destruct j as [|j]; simpl in *.
  - simplify_eq. rewrite dict_of_zip_acc_absent by done.
    apply lookup_insert_eq.
  - by eapply IH.
Qed.

(** With distinct keys, [dict(zip(keys, cells))[keys[j]]] is [cells[j]]. *)
Lemma dict_of_zip_lookup (keys : list string) (cells : list Value)
    (j : nat) (k : string) (v : Value) :
  NoDup keys → keys !! j = Some k → cells !! j = Some v →
  dict_of_zip keys cells !! k = Some v.
Proof. apply dict_of_zip_acc_lookup. Qed.

Lemma attributes_of_acc (row : Row) (cols : list string) (d : Row)
    (c : string) :
  foldl (λ d col, <[col := get row col]> d) d cols !! c
  = if decide (c ∈ cols) then Some (get row c) else d !! c.
Proof.
  revert d. induction cols as [|c' cols IH]; intros d; [done|]. simpl.
  rewrite IH. destruct (decide (c ∈ cols)) as [Hin|Hnin].
  - rewrite decide_True; [done|by right].
  - destruct (decide (c = c')) as [->|Hne].
    + rewrite decide_True; [|by left]. apply lookup_insert_eq.
    + rewrite decide_False; [by rewrite lookup_insert_ne|].
      by intros [?|?]%elem_of_cons.
Qed.

(** [{col: row.get(col) for col in cols}] has exactly the keys [cols], each
    with the raw cell of that column, or [None] where the row has no such
    key. *)
Lemma attributes_of_lookup (row : Row) (cols : list string) (c : string) :
  attributes_of row cols !! c
  = if decide (c ∈ cols) then Some (get row c) else None.
Proof. unfold attributes_of. by rewrite attributes_of_acc. Qed.

(** ** [_prepare_records] *)

Lemma prepare_records_Ok (df : DataFrame) :
  reset_label df ∉ columns df →
  _prepare_records df = Ok (record_of df <$> rows df).
Proof.
  intros Hfresh. unfold _prepare_records, reset_index.
  rewrite bool_decide_eq_false_2 by done. simpl. f_equal.
  unfold to_dict_records, rename. simpl.
  rewrite fmap_imap. unfold compose. simpl.
  induction (rows df) as [|r l IH] using rev_ind; [done|].
  rewrite imap_app, fmap_app, IH. done.
Qed.

Lemma prepare_records_Raise (df : DataFrame) :
  reset_label df ∈ columns df → _prepare_records df = Raise ValueError.
Proof.
  intros Hclash. unfold _prepare_records, reset_index.
  by rewrite bool_decide_eq_true_2.
Qed.

Lemma prepare_records_inv (df : DataFrame) (records : list Row) :
  _prepare_records df = Ok records →
  (reset_label df ∉ columns df) ∧ records = (record_of df <$> rows df).
Proof.
  destruct (decide (reset_label df ∈ columns df)) as [Hin|Hnin].
  - by rewrite prepare_records_Raise.
  - rewrite prepare_records_Ok by done. by intros [= <-].
Qed.

(** A key that is no column of the prepared frame is no key of its
    records. *)
Lemma record_of_absent (df : DataFrame) (r : Value * list Value) (c : string) :
  c ∉ record_columns df → record_of df r !! c = None.
Proof. apply dict_of_zip_absent. Qed.

(** With an unnamed index and no column called ["index"] or ["Index"], a
    record's ["Index"] is the row's index label. *)
Lemma record_of_Index (df : DataFrame) (r : Value * list Value) :
  index_name df = None → "index" ∉ columns df → "Index" ∉ columns df →
  record_of df r !! "Index" = Some r.1.
Proof.
  intros Hname Hindex HIndex. unfold record_of, record_columns, reset_label.
  rewrite Hname, bool_decide_eq_false_2 by done. simpl.
  apply dict_of_zip_head. intros (c & Hc & Hin)%list_elem_of_fmap.
  destruct (String.eqb_spec c "index") as [Heq|_].
  - by subst c.
  - by subst c.
Qed.

(** ** The loaders, whatever the helpers do *)

Section any_helpers.
Context `{!PyBuiltins, !Coercions}.

Lemma load_Ok {A} (of_row : Row → Result A) (df : DataFrame) (objs : list A) :
  _prepare_records df ≫= mapM of_row = Ok objs ↔
  (reset_label df ∉ columns df) ∧
  Forall2 (λ r o, of_row (record_of df r) = Ok o) (rows df) objs.
Proof.
  split.
  - intros (records & [Hfresh ->]%prepare_records_inv & Hobjs)%bind_Ok_inv.
    split; [done|]. apply mapM_Ok in Hobjs. by apply Forall2_fmap_l in Hobjs.
  - intros [Hfresh Hobjs]. rewrite prepare_records_Ok by done. simpl.
    apply mapM_Ok. by apply Forall2_fmap_l.
Qed.

Lemma load_row_by_row {A} (of_row : Row → Result A) df (objs : list A) :
  _prepare_records df ≫= mapM of_row = Ok objs → row_by_row of_row df objs.
Proof.
  intros [_ Hobjs]%load_Ok. split.
  - symmetry. by eapply Forall2_length.
  - intros i r Hr.
    destruct (Forall2_lookup_l _ _ _ _ _ Hobjs Hr) as (o & ? & ?).
    eauto.
Qed.

Lemma load_empty {A} (of_row : Row → Result A) df :
  rows df = [] → reset_label df ∉ columns df →
  _prepare_records df ≫= mapM of_row = Ok [].
Proof. intros Hrows Hfresh. apply load_Ok. rewrite Hrows. by split. Qed.

Lemma mapM_total {A B} (f : A → Result B) (l : list A) :
  (∀ x, x ∈ l → ∃ y, f x = Ok y) → ∃ k, mapM f l = Ok k.
Proof.
  induction l as [|x l IH]; intros Hl; [by exists []|].
  destruct (Hl x) as [y Hy]; [by left|].
  destruct IH as [k Hk]; [intros z Hz; apply Hl; by right|].
  exists (y :: k). apply mapM_Ok. constructor; [done|]. by apply mapM_Ok.
Qed.

Lemma load_total {A} (of_row : Row → Result A) df :
  reset_label df ∉ columns df →
  (∀ r, r ∈ rows df → ∃ o, of_row (record_of df r) = Ok o) →
  ∃ objs, _prepare_records df ≫= mapM of_row = Ok objs.
Proof.
  intros Hfresh Hrows. rewrite prepare_records_Ok by done. simpl.
  apply mapM_total. intros row (r & -> & Hr)%list_elem_of_fmap. eauto.
Qed.

Lemma load_first_row_Raise {A} (of_row : Row → Result A) df r rest e :
  rows df = r :: rest → reset_label df ∉ columns df →
  of_row (record_of df r) = Raise e →
  _prepare_records df ≫= mapM of_row = Raise e.
Proof.
  intros Hrows Hfresh Hrow. rewrite prepare_records_Ok, Hrows by done.
  simpl. by rewrite Hrow.
Qed.

(** Whatever a loader raises is either the [ValueError] of the index
    reset or what the row expression raises on the first row it fails
    on. *)
Lemma load_Raise {A} (of_row : Row → Result A) df (e : Error) :
  _prepare_records df ≫= mapM of_row = Raise e →
  (e = ValueError ∧ reset_label df ∈ columns df) ∨
  ∃ (i : nat) r, rows df !! i = Some r ∧ of_row (record_of df r) = Raise e.
Proof.
  destruct (decide (reset_label df ∈ columns df)) as [Hclash|Hfresh].
  - rewrite prepare_records_Raise by done. intros [= <-]. by left.
  - rewrite prepare_records_Ok by done. simpl.
    intros (i & row & Hrow & Hraise & _)%mapM_Raise. right.
    apply list_lookup_fmap_Some in Hrow as (r & -> & Hr). eauto.
Qed.

Lemma load_raises {A} (of_row : Row → Result A) df r :
  r ∈ rows df → raises (of_row (record_of df r)) = true →
  raises (_prepare_records df ≫= mapM of_row) = true.
Proof.
  intros Hr Hraise.
  destruct (decide (reset_label df ∈ columns df)) as [Hclash|Hfresh].
  - by rewrite prepare_records_Raise.
  - rewrite prepare_records_Ok by done. simpl.
    eapply mapM_raises; [|done]. by apply list_elem_of_fmap_2.
Qed.

Lemma mapM_first_Raise {A B} (f : A → Result B) (l : list A)
    (i : nat) (x : A) (e : Error) :
  l !! i = Some x → f x = Raise e →
  (∀ (j : nat) y, (j < i)%nat → l !! j = Some y → raises (f y) = false) →
  mapM f l = Raise e.
Proof.
  revert i. induction l as [|y l IH]; intros i Hx Hfx Hbefore; [done|].
  change (mapM f (y :: l)) with (z ← f y; k ← mapM f l; mret (z :: k)).
  destruct i as [|i]; simpl in Hx.
  - injection Hx as ->. by rewrite Hfx.
  - specialize (Hbefore 0%nat y) as Hy.
    destruct (f y) as [z|e']; [simpl|by discriminate Hy; [lia|]].
    rewrite (IH i); [done..|].
    intros j y' Hj Hy'. apply (Hbefore (S j)); [lia|done].
Qed.

Lemma load_Raise_iff {A} (of_row : Row → Result A) df (e : Error) :
  _prepare_records df ≫= mapM of_row = Raise e ↔
  (reset_label df ∈ columns df ∧ e = ValueError) ∨
  ((reset_label df ∉ columns df) ∧ first_failure of_row df e).
Proof.
  destruct (decide (reset_label df ∈ columns df)) as [Hclash|Hfresh].
  - rewrite prepare_records_Raise by done. split.
    + intros [= <-]. by left.
    + by intros [[_ ->]|[? _]].
  - rewrite prepare_records_Ok by done. simpl. split.
    + intros (i & row & Hrow & Hraise & Hbefore)%mapM_Raise. right.
      split; [done|].
      apply list_lookup_fmap_Some in Hrow as (r & -> & Hr).
      exists i, r. split_and!; [done..|]. intros j r' Hj Hr'.
      apply (Hbefore j); [done|]. by rewrite list_lookup_fmap, Hr'.
    + intros [[? _]|[_ (i & r & Hr & Hraise & Hbefore)]]; [done|].
      apply (mapM_first_Raise _ _ i (record_of df r)); [|done|].
      * by rewrite list_lookup_fmap, Hr.
      * intros j row Hj (r' & -> & Hr')%list_lookup_fmap_Some. eauto.
Qed.

(** *** The calls of a row expression *)

Lemma failure_Some {A} (m : Result A) (e : Error) :
  failure m = Some e ↔ m = Raise e.
Proof. destruct m; split; intros [=]; by subst. Qed.

Lemma failure_None {A} (m : Result A) : failure m = None ↔ raises m = false.
Proof. by destruct m. Qed.

(** What a sequence of calls raises is what its first failing call
    raises. *)
Lemma steps_failure_Some (steps : list Step) (row : Row) (e : Error) :
  steps_failure steps row = Some e ↔
  ∃ (j : nat) s,
    steps !! j = Some s ∧
    (∀ (j' : nat) s', (j' < j)%nat → steps !! j' = Some s' →
       step_failure s' row = None) ∧
    step_failure s row = Some e.
Proof.
  induction steps as [|s0 steps IH]; simpl.
  - split; [done|]. by intros (j & s & ? & _).
  - destruct (step_failure s0 row) as [e0|] eqn:Hs0.
    + split.
      * intros [= <-]. exists 0%nat, s0. split_and!; [done| |done].
        intros j' s' Hlt. lia.
      * intros (j & s & Hj & Hbefore & Hs). destruct j as [|j].
        -- simpl in Hj. injection Hj as <-. congruence.
        -- specialize (Hbefore 0%nat s0). rewrite Hs0 in Hbefore.
           discriminate Hbefore; [lia|done].
    + rewrite IH. split.
      * intros (j & s & Hj & Hbefore & Hs). exists (S j), s.
        split_and!; [done| |done].
        intros [|j'] s' Hlt Hs'; simpl in Hs'.
        -- by injection Hs' as <-.
        -- apply (Hbefore j'); [lia|done].
      * intros (j & s & Hj & Hbefore & Hs). destruct j as [|j].
        -- simpl in Hj. injection Hj as <-. congruence.
        -- exists j, s. split_and!; [done| |done].
           intros j' s' Hlt Hs'. apply (Hbefore (S j')); [lia|done].
Qed.

Lemma short_id_step_failure (row : Row) (col : option string) :
  failure (short_id_of row col) = step_failure (short_id_step col) row.
Proof.
  unfold short_id_of, short_id_step. destruct (truthy_col col); [done|].
  simpl. by destruct (index_str row).
Qed.

Ltac run_steps :=
  cbn [steps_failure app]; rewrite <- ?short_id_step_failure;
  cbn [step_failure];
  repeat match goal with
         | |- context [failure (?m ≫= _)] =>
             destruct m; simpl; [|reflexivity]
         end;
  reflexivity.

(** Each row expression makes the calls listed for it, in that order: it
    raises what the first failing one raises, and nothing when none
    fails. *)
Lemma entity_of_row_steps kw row :
  failure (entity_of_row kw row) = steps_failure (entity_steps kw) row.
Proof. unfold entity_of_row, entity_steps. run_steps. Qed.

Lemma relationship_of_row_steps kw row :
  failure (relationship_of_row kw row)
  = steps_failure (relationship_steps kw) row.
Proof. unfold relationship_of_row, relationship_steps. run_steps. Qed.

Lemma covariate_of_row_steps kw row :
  failure (covariate_of_row kw row) = steps_failure (covariate_steps kw) row.
Proof.
  unfold covariate_of_row, covariate_steps.
  destruct (truthy_col (Covariates.covariate_type_col kw)); run_steps.
Qed.

Lemma community_of_row_steps kw row :
  failure (community_of_row kw row) = steps_failure (community_steps kw) row.
Proof. unfold community_of_row, community_steps. run_steps. Qed.

Lemma community_report_of_row_steps kw row :
  failure (community_report_of_row kw row)
  = steps_failure (community_report_steps kw) row.
Proof.
  unfold community_report_of_row, community_report_steps. run_steps.
Qed.

Lemma text_unit_of_row_steps kw row :
  failure (text_unit_of_row kw row) = steps_failure (text_unit_steps kw) row.
Proof. unfold text_unit_of_row, text_unit_steps. run_steps. Qed.

(** A load raises what the first failing call of the first failing row
    raises, unless the index reset has failed before. *)
Lemma load_reaches {A} (of_row : Row → Result A) (steps : list Step)
    df (e : Error) :
  (∀ row, failure (of_row row) = steps_failure steps row) →
  _prepare_records df ≫= mapM of_row = Raise e ↔
  (reset_label df ∈ columns df ∧ e = ValueError) ∨
  ∃ (i j : nat) r s,
    reaches steps df i j r s ∧ step_failure s (record_of df r) = Some e.
Proof.
  intros Hsteps. rewrite load_Raise_iff. split.
  - intros [?|[Hfresh (i & r & Hr & Hraise & Hbefore)]]; [by left|right].
    apply failure_Some in Hraise. rewrite Hsteps in Hraise.
    apply steps_failure_Some in Hraise as (j & s & Hj & Hearlier & Hs).
    exists i, j, r, s. split; [|done]. split_and!; [done..| |done|done].
    intros i' r' Hlt Hr'. rewrite <- Hsteps. apply failure_None. eauto.
  - intros [?|(i & j & r & s & (Hfresh & Hr & Hbefore & Hj & Hearlier) & Hs)];
      [by left|right].
    split; [done|]. exists i, r. split_and!; [done| |].
    + apply failure_Some. rewrite Hsteps. apply steps_failure_Some. eauto.
    + intros i' r' Hlt Hr'. apply failure_None. rewrite Hsteps. eauto.
Qed.

(** *** Short ids *)

Lemma index_str_Ok (row : Row) (s : string) :
  index_str row = Ok s → ∃ v, row !! "Index" = Some v ∧ s = str v.
Proof.
  unfold index_str, getitem. destruct (row !! "Index") as [v|]; [|done].
  intros [= <-]. eauto.
Qed.

Lemma short_id_of_fallback (row : Row) (col : option string) s :
  truthy_col col = false → short_id_of row col = Ok s →
  ∃ v, row !! "Index" = Some v ∧ s = Some (str v).
Proof.
  unfold short_id_of. intros ->.
  intros (s' & (v & ? & ->)%index_str_Ok & ->)%fmap_Ok_inv. eauto.
Qed.

Lemma row_by_row_short_ids {A} (of_row : Row → Result A)
    (short_id : A → option string) df (objs : list A) :
  (∀ row o, of_row row = Ok o →
     ∃ v, row !! "Index" = Some v ∧ short_id o = Some (str v)) →
  row_by_row of_row df objs →
  short_ids_from_index df (short_id <$> objs).
Proof.
  intros Hfield [_ Hrows] i r Hr.
  destruct (Hrows i r Hr) as (o & Ho & Hrow).
  destruct (Hfield _ _ Hrow) as (v & Hv & Hid).
  exists v. split; [done|]. by rewrite list_lookup_fmap, Ho, <- Hid.
Qed.

Lemma short_ids_positions df (short_ids : list (option string)) :
  range_index df → no_index_column df →
  short_ids_from_index df short_ids → short_ids_are_positions df short_ids.
Proof.
  intros [Hname Hlabels] [Hindex HIndex] Hids i Hi.
  destruct (lookup_lt_is_Some_2 (rows df) i Hi) as [[label cells] Hr].
  destruct (Hids i _ Hr) as (v & Hv & ->).
  rewrite record_of_Index in Hv by done. injection Hv as <-.
  by rewrite (Hlabels i label cells Hr).
Qed.

(** *** Attributes *)

Lemma attributes_dict_Some (row : Row) (cols : list string) :
  cols ≠ [] →
  attributes_dict row (Some cols) = Some (attributes_of row cols).
Proof. by destruct cols. Qed.

Lemma row_by_row_attributes {A} (of_row : Row → Result A)
    (attributes : A → option Row) (cols : list string)
    df (objs : list A) :
  cols ≠ [] →
  (∀ row o, of_row row = Ok o →
     attributes o = attributes_dict row (Some cols)) →
  row_by_row of_row df objs →
  attributes_passthrough df cols (attributes <$> objs).
Proof.
  intros Hcols Hfield [_ Hrows] i r Hr.
  destruct (Hrows i r Hr) as (o & Ho & Hrow).
  exists (attributes_of (record_of df r) cols). split_and!.
  - rewrite list_lookup_fmap, Ho. simpl.
    by rewrite (Hfield _ _ Hrow), attributes_dict_Some.
  - apply attributes_of_lookup.
  - intros c Hc Habsent. rewrite attributes_of_lookup, decide_True by done.
    unfold get. by rewrite record_of_absent.
  - intros c j v Hc Hnodup Hj Hv.
    rewrite attributes_of_lookup, decide_True by done.
    unfold get, record_of. by erewrite dict_of_zip_lookup.
Qed.

(** *** What each row expression puts in [short_id] and [attributes] *)

Ltac invert_row H :=
  repeat (let H' := fresh in
          apply bind_Ok_inv in H; destruct H as (? & ? & H');
          rename H' into H);
  injection H as <-; simpl.

Lemma entity_of_row_fields kw row o :
  entity_of_row kw row = Ok o →
  short_id_of row (Entities.short_id_col kw) = Ok (Entity.short_id o) ∧
  Entity.attributes o = attributes_dict row (Entities.attributes_cols kw).
Proof. intros Hrow. unfold entity_of_row in Hrow. by invert_row Hrow. Qed.

Lemma relationship_of_row_fields kw row o :
  relationship_of_row kw row = Ok o →
  short_id_of row (Relationships.short_id_col kw)
    = Ok (Relationship.short_id o) ∧
  Relationship.attributes o
    = attributes_dict row (Relationships.attributes_cols kw).
Proof. intros Hrow. unfold relationship_of_row in Hrow. by invert_row Hrow. Qed.

Lemma covariate_of_row_fields kw row o :
  covariate_of_row kw row = Ok o →
  short_id_of row (Covariates.short_id_col kw) = Ok (Covariate.short_id o) ∧
  Covariate.attributes o
    = attributes_dict row (Covariates.attributes_cols kw).
Proof. intros Hrow. unfold covariate_of_row in Hrow. by invert_row Hrow. Qed.

Lemma community_of_row_fields kw row o :
  community_of_row kw row = Ok o →
  short_id_of row (Communities.short_id_col kw) = Ok (Community.short_id o) ∧
  Community.attributes o
    = attributes_dict row (Communities.attributes_cols kw).
Proof. intros Hrow. unfold community_of_row in Hrow. by invert_row Hrow. Qed.

Lemma community_report_of_row_fields kw row o :
  community_report_of_row kw row = Ok o →
  short_id_of row (CommunityReports.short_id_col kw)
    = Ok (CommunityReport.short_id o) ∧
  CommunityReport.attributes o
    = attributes_dict row (CommunityReports.attributes_cols kw).
Proof.
  intros Hrow. unfold community_report_of_row in Hrow. by invert_row Hrow.
Qed.

Lemma text_unit_of_row_fields kw row o :
  text_unit_of_row kw row = Ok o →
  Some <$> index_str row = Ok (TextUnit.short_id o) ∧
  TextUnit.attributes o
    = attributes_dict row (TextUnits.attributes_cols kw).
Proof.
  intros Hrow. unfold text_unit_of_row in Hrow. invert_row Hrow.
  split; [|done].
  by match goal with Hs : index_str _ = _ |- _ => rewrite Hs end.
Qed.

(** *** Other fields *)

Lemma covariate_of_row_type kw row o :
  truthy_col (Covariates.covariate_type_col kw) = false →
  covariate_of_row kw row = Ok o → Covariate.covariate_type o = "claim".
Proof.
  intros Hcol Hrow. unfold covariate_of_row in Hrow. rewrite Hcol in Hrow.
  invert_row Hrow.
  by match goal with Hx : mret _ = Ok _ |- _ => injection Hx end.
Qed.

Lemma community_of_row_parent kw row o :
  community_of_row kw row = Ok o →
  to_str row (Communities.parent_col kw) = Ok (Community.parent o) ∧
  to_list row (Communities.children_col kw) None = Ok (Community.children o).
Proof. intros Hrow. unfold community_of_row in Hrow. by invert_row Hrow. Qed.






Lemma short_ids_from_index_unique df (ids ids' : list (option string)) :
  length ids = length (rows df) → length ids' = length (rows df) →
  short_ids_from_index df ids → short_ids_from_index df ids' → ids = ids'.
Proof.
  intros Hlen Hlen' Hids Hids'. apply list_eq. intros i.
  destruct (rows df !! i) as [r|] eqn:Hr.
  - destruct (Hids i r Hr) as (v & Hv & ->).
    destruct (Hids' i r Hr) as (v' & Hv' & ->). congruence.
  - apply lookup_ge_None in Hr.
    rewrite !(lookup_ge_None_2 _ i); [done|lia..].
Qed.

(** With [short_id_col] unbound each loader takes the short id from the
    ["Index"] entry of the row's record; [read_text_units] always does. *)
Lemma unbound_short_id_from_index df :
  (∀ kw objs, truthy_col (Entities.short_id_col kw) = false →
     read_entities df kw = Ok objs →
     short_ids_from_index df (Entity.short_id <$> objs)) ∧
  (∀ kw objs, truthy_col (Relationships.short_id_col kw) = false →
     read_relationships df kw = Ok objs →
     short_ids_from_index df (Relationship.short_id <$> objs)) ∧
  (∀ kw objs, truthy_col (Covariates.short_id_col kw) = false →
     read_covariates df kw = Ok objs →
     short_ids_from_index df (Covariate.short_id <$> objs)) ∧
  (∀ kw objs, truthy_col (Communities.short_id_col kw) = false →
     read_communities df kw = Ok objs →
     short_ids_from_index df (Community.short_id <$> objs)) ∧
  (∀ kw objs, truthy_col (CommunityReports.short_id_col kw) = false →
     read_community_reports df kw = Ok objs →
     short_ids_from_index df (CommunityReport.short_id <$> objs)) ∧
  (∀ kw objs, read_text_units df kw = Ok objs →
     short_ids_from_index df (TextUnit.short_id <$> objs)).
Proof.
  split_and!; intros kw objs;
    [intros Hcol Hload..|intros Hload];
    apply load_row_by_row in Hload;
    (eapply row_by_row_short_ids; [|exact Hload]); intros row o Hrow.
  - apply entity_of_row_fields in Hrow as [Hid _].
    by eapply short_id_of_fallback.
  - apply relationship_of_row_fields in Hrow as [Hid _].
    by eapply short_id_of_fallback.
  - apply covariate_of_row_fields in Hrow as [Hid _].
    by eapply short_id_of_fallback.
  - apply community_of_row_fields in Hrow as [Hid _].
    by eapply short_id_of_fallback.
  - apply community_report_of_row_fields in Hrow as [Hid _].
    by eapply short_id_of_fallback.
  - apply text_unit_of_row_fields in Hrow as [Hid _].
    apply fmap_Ok_inv in Hid as (s & (v & ? & ->)%index_str_Ok & ->). eauto.
Qed.

(** C4.  A load that succeeds returns exactly one object per row of the
    table, and the i-th object is the one the loader's row expression
    builds from the i-th row: the output is in row order.  This holds for
    each of the six loaders and every implementation of the helpers. *)
Theorem loaders_row_by_row df :
  (∀ kw objs, read_entities df kw = Ok objs →
     row_by_row (entity_of_row kw) df objs) ∧
  (∀ kw objs, read_relationships df kw = Ok objs →
     row_by_row (relationship_of_row kw) df objs) ∧
  (∀ kw objs, read_covariates df kw = Ok objs →
     row_by_row (covariate_of_row kw) df objs) ∧
  (∀ kw objs, read_communities df kw = Ok objs →
     row_by_row (community_of_row kw) df objs) ∧
  (∀ kw objs, read_community_reports df kw = Ok objs →
     row_by_row (community_report_of_row kw) df objs) ∧
  (∀ kw objs, read_text_units df kw = Ok objs →
     row_by_row (text_unit_of_row kw) df objs).
Proof. split_and!; intros kw objs; apply load_row_by_row. Qed.

(** C10, amended.  On a table with zero rows whose index reset succeeds
    (the label [reset_index] gives the old index is not already a column)
    each loader returns the empty list, whatever the column bindings and
    whatever columns the table has: no helper is ever called. *)
Theorem loaders_empty_table df :
  rows df = [] → reset_label df ∉ columns df →
  (∀ kw, read_entities df kw = Ok []) ∧
  (∀ kw, read_relationships df kw = Ok []) ∧
  (∀ kw, read_covariates df kw = Ok []) ∧
  (∀ kw, read_communities df kw = Ok []) ∧
  (∀ kw, read_community_reports df kw = Ok []) ∧
  (∀ kw, read_text_units df kw = Ok []).
Proof. intros Hrows Hfresh. split_and!; intros kw; by apply load_empty. Qed.

Lemma short_ids_labels df (short_ids : list (option string)) :
  index_name df = None → no_index_column df →
  short_ids_from_index df short_ids → short_ids_are_labels df short_ids.
Proof.
  intros Hname [Hindex HIndex] Hids i r Hr.
  destruct (Hids i r Hr) as (v & Hv & ->).
  rewrite record_of_Index in Hv by done. by injection Hv as <-.
Qed.

Lemma short_id_of_configured (row : Row) (col : option string) s :
  truthy_col col = true → short_id_of row col = Ok s →
  to_optional_str row col = Ok s.
Proof. unfold short_id_of. by intros ->. Qed.

Lemma row_by_row_configured {A} (of_row : Row → Result A)
    (short_id : A → option string) (col : option string)
    df (objs : list A) :
  (∀ row o, of_row row = Ok o → to_optional_str row col = Ok (short_id o)) →
  row_by_row of_row df objs →
  short_ids_from_column df col (short_id <$> objs).
Proof.
  intros Hfield [_ Hrows] i r Hr.
  destruct (Hrows i r Hr) as (o & Ho & Hrow).
  exists (short_id o). split; [by rewrite list_lookup_fmap, Ho|]. eauto.
Qed.

Lemma fallback_loads_impl df (P Q : list (option string) → Prop) :
  (∀ short_ids, P short_ids → Q short_ids) →
  fallback_loads df P → fallback_loads df Q.
Proof.
  intros HPQ (He & Hr & Hc & Hm & Hp & Ht). split_and!; eauto.
Qed.

Lemma configured_short_id df : configured_loads df.
Proof.
  split_and!; intros kw objs Hcol Hload;
    apply load_row_by_row in Hload;
    (eapply row_by_row_configured; [|exact Hload]); intros row o Hrow.
  - apply entity_of_row_fields in Hrow as [Hid _].
    by apply short_id_of_configured.
  - apply relationship_of_row_fields in Hrow as [Hid _].
    by apply short_id_of_configured.
  - apply covariate_of_row_fields in Hrow as [Hid _].
    by apply short_id_of_configured.
  - apply community_of_row_fields in Hrow as [Hid _].
    by apply short_id_of_configured.
  - apply community_report_of_row_fields in Hrow as [Hid _].
    by apply short_id_of_configured.
Qed.

(** C1, amended.  A loader called with [short_id_col] unbound ([None] or
    the empty string) gives every object the short id [str(row["Index"])] of
    its row's prepared record, and so does [read_text_units], which has no
    such binding.  On a table with an unnamed index and no column called
    ["index"] or ["Index"] that is the [str] of the row's index label, and
    when moreover the labels are the default [0..N-1] it is [str(i)] for the
    i-th object.  A loader called with a [short_id_col] gives every object
    what [to_optional_str] returns for that column of its row: the fallback
    is not used, whether or not the row has the column. *)
Theorem short_id_source df :
  fallback_loads df (short_ids_from_index df) ∧
  (index_name df = None → no_index_column df →
   fallback_loads df (short_ids_are_labels df)) ∧
  (range_index df → no_index_column df →
   fallback_loads df (short_ids_are_positions df)) ∧
  configured_loads df.
Proof.
  split_and!.
  - apply unbound_short_id_from_index.
  - intros Hname Hcols.
    eapply fallback_loads_impl; [|apply unbound_short_id_from_index].
    intros short_ids. by apply short_ids_labels.
  - intros Hrange Hcols.
    eapply fallback_loads_impl; [|apply unbound_short_id_from_index].
    intros short_ids. by apply short_ids_positions.
  - apply configured_short_id.
Qed.

(** C9, amended.  [read_text_units] sets each short id to
    [str(row["Index"])] of the row's prepared record.  On a table with an
    unnamed index and no column called ["index"] or ["Index"] that is the
    [str] of the row's index label, and when moreover the labels are the
    default [0..N-1] it is the stringified row position.  No column binding
    configures it: the short ids of a successful load are the same for all
    bindings. *)
Theorem text_unit_short_id df kw objs :
  read_text_units df kw = Ok objs →
  short_ids_from_index df (TextUnit.short_id <$> objs) ∧
  (index_name df = None → no_index_column df →
   short_ids_are_labels df (TextUnit.short_id <$> objs)) ∧
  (range_index df → no_index_column df →
   short_ids_are_positions df (TextUnit.short_id <$> objs)) ∧
  (∀ kw' objs', read_text_units df kw' = Ok objs' →
     TextUnit.short_id <$> objs' = TextUnit.short_id <$> objs).
Proof.
  intros Hload.
  destruct (unbound_short_id_from_index df) as (_ & _ & _ & _ & _ & Ht).
  split_and!.
  - by apply (Ht kw).
  - intros Hname Hcols. apply short_ids_labels; [done..|]. by apply (Ht kw).
  - intros Hrange Hcols. apply short_ids_positions; [done..|]. by apply (Ht kw).
  - intros kw' objs' Hload'.
    apply (short_ids_from_index_unique df).
    + rewrite length_fmap. by apply load_row_by_row in Hload' as [? _].
    + rewrite length_fmap. by apply load_row_by_row in Hload as [? _].
    + by apply (Ht kw').
    + by apply (Ht kw).
Qed.

(** C7, amended.  When [attributes_cols] is a non-empty list, each
    produced object's attributes mapping has exactly the listed columns as
    keys, each with [row.get] of it on the row's record: the raw cell of
    that column, uncoerced, and [None] for a listed column that is no
    column of the prepared frame (the table's columns and the reset index
    column, ["index"] renamed to ["Index"]). *)
Theorem attributes_copied df :
  (∀ kw cols objs, Entities.attributes_cols kw = Some cols → cols ≠ [] →
     read_entities df kw = Ok objs →
     attributes_passthrough df cols (Entity.attributes <$> objs)) ∧
  (∀ kw cols objs,
     Relationships.attributes_cols kw = Some cols → cols ≠ [] →
     read_relationships df kw = Ok objs →
     attributes_passthrough df cols (Relationship.attributes <$> objs)) ∧
  (∀ kw cols objs,
     Covariates.attributes_cols kw = Some cols → cols ≠ [] →
     read_covariates df kw = Ok objs →
     attributes_passthrough df cols (Covariate.attributes <$> objs)) ∧
  (∀ kw cols objs,
     Communities.attributes_cols kw = Some cols → cols ≠ [] →
     read_communities df kw = Ok objs →
     attributes_passthrough df cols (Community.attributes <$> objs)) ∧
  (∀ kw cols objs,
     CommunityReports.attributes_cols kw = Some cols → cols ≠ [] →
     read_community_reports df kw = Ok objs →
     attributes_passthrough df cols (CommunityReport.attributes <$> objs)) ∧
  (∀ kw cols objs,
     TextUnits.attributes_cols kw = Some cols → cols ≠ [] →
     read_text_units df kw = Ok objs →
     attributes_passthrough df cols (TextUnit.attributes <$> objs)).
Proof.
  split_and!; intros kw cols objs Hkw Hcols Hload;
    apply load_row_by_row in Hload;
    (eapply row_by_row_attributes; [done| |exact Hload]);
    intros row o Hrow; rewrite <- Hkw.
  - by apply entity_of_row_fields in Hrow as [_ ?].
  - by apply relationship_of_row_fields in Hrow as [_ ?].
  - by apply covariate_of_row_fields in Hrow as [_ ?].
  - by apply community_of_row_fields in Hrow as [_ ?].
  - by apply community_report_of_row_fields in Hrow as [_ ?].
  - by apply text_unit_of_row_fields in Hrow as [_ ?].
Qed.

End any_helpers.

(** ** The loaders over the specification's helpers *)

Section spec_helpers.
Context `{!PyBuiltins}.
#[local] Existing Instance spec_coercions.

(** *** The helpers *)

Lemma present_Some (row : Row) (col : option string) (v : Value) :
  utils.present row col = Some v ↔
  ∃ c, col = Some c ∧ row !! c = Some v ∧ v ≠ VNone.
Proof.
  unfold utils.present. split.
  - destruct col as [c|]; [simpl|done].
    destruct (row !! c) as [w|] eqn:Hc; [simpl|done].
    intros Hw. exists c. destruct w; simplify_eq; by split_and!.
  - intros (c & -> & Hc & Hv). simpl. rewrite Hc. simpl. by destruct v.
Qed.

Lemma present_None (row : Row) (col : option string) :
  unbound_or_absent row col → utils.present row col = None.
Proof.
  unfold utils.present. destruct col as [c|]; simpl; [|done]. by intros ->.
Qed.

Lemma to_str_Ok (row : Row) (col : option string) (s : string) :
  to_str row col = Ok s ↔
  ∃ c v, col = Some c ∧ row !! c = Some v ∧ v ≠ VNone ∧ s = str v.
Proof.
  simpl. unfold utils.to_str. split.
  - destruct col as [c|]; [|done].
    destruct (row !! c) as [w|] eqn:Hc; [|done].
    intros Hw. exists c, w. destruct w; simplify_eq; by split_and!.
  - intros (c & v & -> & -> & Hv & ->). by destruct v.
Qed.

Lemma to_str_missing (row : Row) (col : option string) :
  to_str row col = Raise MissingColumnError ↔ unbound_or_absent row col.
Proof.
  simpl. unfold utils.to_str. destruct col as [c|]; simpl; [|done].
  destruct (row !! c) as [v|]; [|done]. by destruct v.
Qed.

Lemma to_str_Raise (row : Row) (col : option string) (e : Error) :
  to_str row col = Raise e → e = MissingColumnError ∨ e = CoercionError.
Proof.
  simpl. unfold utils.to_str. destruct col as [c|]; [|intros [= <-]; eauto].
  destruct (row !! c) as [v|]; [|intros [= <-]; eauto].
  destruct v; intros [= <-]; eauto.
Qed.

Lemma to_optional_str_total (row : Row) (col : option string) :
  to_optional_str row col = Ok (str <$> utils.present row col).
Proof. done. Qed.

Lemma coerce_Raise (ty : option PyType) (v : Value) (e : Error) :
  utils.coerce ty v = Raise e → e = CoercionError.
Proof.
  unfold utils.coerce. destruct ty as [[]|]; [| | |done].
  - by destruct v; intros [= <-].
  - by destruct (utils.as_float v); intros [= <-].
  - by destruct (utils.as_int v); intros [= <-].
Qed.

Lemma to_optional_int_Raise row col e :
  to_optional_int row col = Raise e → e = CoercionError.
Proof.
  simpl. unfold utils.to_optional_int.
  destruct (utils.present row col) as [v|]; [|done].
  by destruct (utils.as_int v); intros [= <-].
Qed.

Lemma to_optional_float_Raise row col e :
  to_optional_float row col = Raise e → e = CoercionError.
Proof.
  simpl. unfold utils.to_optional_float.
  destruct (utils.present row col) as [v|]; [|done].
  by destruct (utils.as_float v); intros [= <-].
Qed.

Lemma to_optional_list_Raise row col ty e :
  to_optional_list row col ty = Raise e → e = CoercionError.
Proof.
  simpl. unfold utils.to_optional_list.
  destruct (utils.present row col) as [v|]; [|done].
  destruct v; try done.
  destruct (mapM (utils.coerce ty) items) as [l|e'] eqn:Hitems; [done|].
  intros [= <-]. apply mapM_Raise in Hitems as (? & ? & _ & Hx & _).
  by eapply coerce_Raise.
Qed.

Lemma to_list_Raise row col ty e :
  to_list row col ty = Raise e → e = CoercionError.
Proof.
  simpl. unfold utils.to_list.
  destruct (utils.to_optional_list row col ty) as [l|e'] eqn:Hl; [done|].
  intros [= <-]. by eapply to_optional_list_Raise.
Qed.

Lemma to_optional_dict_Raise row col kt vt e :
  to_optional_dict row col kt vt = Raise e → e = CoercionError.
Proof.
  simpl. unfold utils.to_optional_dict.
  destruct (utils.present row col) as [v|]; [|done].
  destruct v; try by intros [= <-].
  match goal with |- context [mapM ?f items] =>
    destruct (mapM f items) as [l|e'] eqn:Hitems end; [done|].
  intros [= <-]. apply mapM_Raise in Hitems as (? & kv & _ & Hkv & _).
  apply bind_Raise_inv in Hkv as [Hk|(? & _ & Hkv)];
    [by eapply coerce_Raise|].
  apply bind_Raise_inv in Hkv as [Hv|(? & _ & [=])].
  by eapply coerce_Raise.
Qed.

Lemma index_str_Raise row e :
  index_str row = Raise e → e = KeyError "Index".
Proof.
  unfold index_str, getitem. destruct (row !! "Index"); [done|].
  by intros [= <-].
Qed.

Lemma short_id_of_Raise row col e :
  short_id_of row col = Raise e → e = KeyError "Index".
Proof.
  unfold short_id_of. destruct (truthy_col col); [done|].
  destruct (index_str row) as [s|e'] eqn:Hs; [done|].
  intros [= <-]. by eapply index_str_Raise.
Qed.


Lemma to_list_default row col ty :
  unbound_or_absent row col → to_list row col ty = Ok [].
Proof.
  intros Hcol. simpl. unfold utils.to_list, utils.to_optional_list.
  by rewrite present_None.
Qed.

(** *** Communities: [parent] and [children] *)

Lemma community_of_row_no_parent kw row :
  unbound_or_absent row (Communities.parent_col kw) →
  raises (community_of_row kw row) = true.
Proof.
  intros Hparent%to_str_missing. unfold community_of_row.
  repeat first [ rewrite Hparent; done | apply bind_raises; intros ? ].
Qed.

(** C8.  [read_communities] produces [parent] by the required-string
    coercion: in a load that succeeds every parent is the [str] of a
    present, non-null cell of the bound column, and a table with a row
    whose record lacks the bound parent column, or a null [parent_col],
    makes the load raise. *)
Theorem parent_is_required df kw :
  (∀ objs (i : nat) r o,
     read_communities df kw = Ok objs →
     rows df !! i = Some r → objs !! i = Some o →
     ∃ c v, Communities.parent_col kw = Some c ∧
            record_of df r !! c = Some v ∧ v ≠ VNone ∧
            Community.parent o = str v) ∧
  (∀ r, r ∈ rows df →
     unbound_or_absent (record_of df r) (Communities.parent_col kw) →
     ∃ e, read_communities df kw = Raise e).
Proof.
  split.
  - intros objs i r o [_ Hrows]%load_row_by_row Hr Ho.
    destruct (Hrows i r Hr) as (o' & Ho' & Hrow). simplify_eq.
    apply community_of_row_parent in Hrow as [Hparent _].
    apply to_str_Ok in Hparent as (c & v & ? & ? & ? & ?). eauto 10.
  - intros r Hr Hparent. apply raises_true.
    eapply load_raises; [done|]. by apply community_of_row_no_parent.
Qed.

(** C5.  For every row [read_communities] processes, when [children_col]
    is null or the row's record has no such column, the children coercion
    returns the empty list (it neither raises nor yields null) and the
    produced Community's [children] is the empty list. *)
Theorem children_default_empty df kw objs (i : nat) r o :
  read_communities df kw = Ok objs →
  rows df !! i = Some r → objs !! i = Some o →
  unbound_or_absent (record_of df r) (Communities.children_col kw) →
  to_list (record_of df r) (Communities.children_col kw) None = Ok [] ∧
  Community.children o = [].
Proof.
  intros [_ Hrows]%load_row_by_row Hr Ho Hcol.
  destruct (Hrows i r Hr) as (o' & Ho' & Hrow). simplify_eq.
  apply community_of_row_parent in Hrow as [_ Hchildren].
  rewrite to_list_default in Hchildren by done.
  split; [by apply to_list_default|]. by injection Hchildren.
Qed.

(** *** Scalars in list cells *)




(** *** Covariates: the type *)

Lemma covariate_record df r i s :
  index_name df = None → columns df = ["id"; "subject_id"] →
  r.2 = [i; s] →
  record_of df r !! "id" = Some i ∧
  record_of df r !! "subject_id" = Some s ∧
  record_of df r !! "human_readable_id" = None ∧
  record_of df r !! "text_unit_ids" = None ∧
  record_of df r !! "type" = None.
Proof.
  intros Hname Hcols Hcells.
  unfold record_of, record_columns, reset_label.
  rewrite Hname, Hcols, Hcells. unfold dict_of_zip. simpl.
  split_and!; by simplify_map_eq.
Qed.

Lemma covariate_of_row_untyped df r i s :
  index_name df = None → columns df = ["id"; "subject_id"] →
  r.2 = [i; s] → i ≠ VNone → s ≠ VNone →
  ∃ o, covariate_of_row covariates_untyped (record_of df r) = Ok o.
Proof.
  intros Hname Hcols Hcells Hi Hs.
  destruct (covariate_record df r i s) as (Hid & Hsub & Hh & Ht & _);
    [done..|].
  unfold covariate_of_row, short_id_of. simpl.
  unfold utils.to_str, utils.to_optional_str, utils.to_optional_list,
    utils.present. simpl.
  rewrite Hid, Hsub, Hh, Ht. simpl.
  destruct i; try done; destruct s; try done; simpl; eauto.
Qed.

Lemma covariate_of_row_default_type df r i s :
  index_name df = None → columns df = ["id"; "subject_id"] →
  r.2 = [i; s] → i ≠ VNone → s ≠ VNone →
  covariate_of_row Covariates.defaults (record_of df r)
  = Raise MissingColumnError.
Proof.
  intros Hname Hcols Hcells Hi Hs.
  destruct (covariate_record df r i s) as (Hid & Hsub & Hh & _ & Hty);
    [done..|].
  unfold covariate_of_row, short_id_of. simpl.
  unfold utils.to_str, utils.to_optional_str, utils.present. simpl.
  rewrite Hid, Hsub, Hh, Hty. simpl.
  destruct i; try done; destruct s; try done; simpl; eauto.
Qed.

(** C2, amended.  On a table whose columns are exactly [id] and
    [subject_id], with an unnamed index and no null cell,
    [read_covariates] with [covariate_type_col=None] and the other bindings
    at their defaults succeeds and every Covariate's [covariate_type] is
    ["claim"]; with the default binding [covariate_type_col="type"] the load
    raises MissingColumnError as soon as the table has a row. *)
Theorem covariate_type_claim_when_unbound df :
  index_name df = None → columns df = ["id"; "subject_id"] →
  (∀ r, r ∈ rows df → ∃ i s, r.2 = [i; s] ∧ i ≠ VNone ∧ s ≠ VNone) →
  (∃ objs, read_covariates df covariates_untyped = Ok objs ∧
           length objs = length (rows df) ∧
           ∀ o, o ∈ objs → Covariate.covariate_type o = "claim") ∧
  (rows df ≠ [] →
   read_covariates df Covariates.defaults = Raise MissingColumnError).
Proof.
  intros Hname Hcols Hcells.
  assert (reset_label df ∉ columns df) as Hfresh.
  { unfold reset_label. rewrite Hname, Hcols.
    apply (bool_decide_unpack _). by vm_compute. }
  split.
  - destruct (load_total (covariate_of_row covariates_untyped) df)
      as [objs Hload]; [done| |].
    { intros r Hr. destruct (Hcells r Hr) as (i & s & ? & ? & ?).
      by eapply covariate_of_row_untyped. }
    exists objs. split; [done|].
    destruct (load_row_by_row _ _ _ Hload) as [Hlen _].
    split; [done|]. intros o Ho.
    apply load_Ok in Hload as [_ Hobjs].
    apply list_elem_of_lookup in Ho as [j Hj].
    destruct (Forall2_lookup_r _ _ _ _ _ Hobjs Hj) as (r & _ & Hrow).
    by eapply covariate_of_row_type; [|exact Hrow].
  - intros Hrows. destruct (rows df) as [|r rest] eqn:Hr; [done|].
    destruct (Hcells r) as (i & s & ? & ? & ?); [by left|].
    eapply load_first_row_Raise; [done..|].
    by eapply covariate_of_row_default_type.
Qed.

(** *** Where the exceptions come from *)

Lemma bind_Ok {A B} (a : A) (k : A → Result B) : Ok a ≫= k = k a.
Proof. done. Qed.

Lemma mapM_raises_existsb {A B} (f : A → Result B) (l : list A) :
  raises (mapM f l) = existsb (λ x, raises (f x)) l.
Proof.
  induction l as [|x l IH]; [done|].
  change (mapM f (x :: l)) with (z ← f x; k ← mapM f l; mret (z :: k)).
  simpl. destruct (f x); simpl; [|done]. rewrite <- IH.
  by destruct (mapM f l).
Qed.

Lemma existsb_pointwise {A} (f g : A → bool) (l : list A) :
  (∀ x, f x = g x) → existsb f l = existsb g l.
Proof.
  intros Hfg. induction l as [|x l IH]; simpl; [done|]. by rewrite Hfg, IH.
Qed.

Lemma failure_CoercionError {A} (m : Result A) :
  (∀ e, m = Raise e → e = CoercionError) →
  failure m = Some CoercionError ↔ raises m = true.
Proof.
  intros Hm. destruct m as [a|e]; simpl; [done|].
  by rewrite (Hm e eq_refl).
Qed.

(** The cell a binding names in a row, if any. *)
Lemma cell_of_binding (row : Row) (col : option string) (P : Value → Prop) :
  (∃ c v, col = Some c ∧ row !! c = Some v ∧ P v) ↔
  match col ≫= (row !!.) with Some v => P v | None => False end.
Proof.
  destruct col as [c|]; simpl.
  - destruct (row !! c) as [v|] eqn:Hc.
    + split; [|by eauto]. intros (c' & v' & [= <-] & Hv' & ?). congruence.
    + split; [|done]. intros (c' & v' & [= <-] & Hv' & ?). congruence.
  - split; [|done]. by intros (c' & v' & [=] & _).
Qed.

(** A call raises MissingColumnError exactly when it is a required-string
    coercion whose binding names no column of the row. *)
Lemma step_missing (s : Step) (row : Row) :
  step_failure s row = Some MissingColumnError ↔
  ∃ col, s = call_to_str col ∧ unbound_or_absent row col.
Proof.
  destruct s as [col|col|col|col|col ty|col ty|col kt vt|];
    cbn [step_failure]; rewrite failure_Some.
  - rewrite to_str_missing. split; [by eauto|]. by intros (col' & [= <-] & ?).
  - split; [done|]. by intros (col' & [=] & _).
  - split; [by intros [=]%to_optional_int_Raise|]. by intros (col' & [=] & _).
  - split; [by intros [=]%to_optional_float_Raise|].
    by intros (col' & [=] & _).
  - split; [by intros [=]%to_optional_list_Raise|].
    by intros (col' & [=] & _).
  - split; [by intros [=]%to_list_Raise|]. by intros (col' & [=] & _).
  - split; [by intros [=]%to_optional_dict_Raise|].
    by intros (col' & [=] & _).
  - split; [by intros [=]%index_str_Raise|]. by intros (col' & [=] & _).
Qed.

Lemma to_optional_list_raises row col ty :
  raises (to_optional_list row col ty)
  = match utils.present row col with
    | Some (VList items) => existsb (λ x, raises (utils.coerce ty x)) items
    | _ => false
    end.
Proof.
  simpl. unfold utils.to_optional_list.
  destruct (utils.present row col) as [v|]; [|done]. destruct v; try done.
  rewrite <- mapM_raises_existsb. by destruct (mapM (utils.coerce ty) items).
Qed.

Lemma to_optional_dict_raises row col kt vt :
  raises (to_optional_dict row col kt vt)
  = match utils.present row col with
    | Some (VDict items) =>
        existsb (λ kv, raises (utils.coerce kt kv.1)
                       || raises (utils.coerce vt kv.2)) items
    | Some _ => true
    | None => false
    end.
Proof.
  simpl. unfold utils.to_optional_dict.
  destruct (utils.present row col) as [v|]; [|done]. destruct v; try done.
  match goal with |- context [mapM ?f items] =>
    transitivity (raises (mapM f items)); [by destruct (mapM f items)|]
  end.
  rewrite mapM_raises_existsb. apply existsb_pointwise. intros [k w]. simpl.
  destruct (utils.coerce kt k); [|done]. simpl.
  by destruct (utils.coerce vt w).
Qed.

Lemma present_cell (row : Row) (c : string) :
  utils.present row (Some c)
  = match row !! c with
    | Some VNone | None => None
    | Some v => Some v
    end.
Proof.
  unfold utils.present. simpl. destruct (row !! c) as [v|]; [|done].
  by destruct v.
Qed.

(** A call raises CoercionError exactly when its binding names a column
    under which the row has a cell that cannot be converted. *)
Lemma step_unconvertible (s : Step) (row : Row) :
  step_failure s row = Some CoercionError ↔
  ∃ c v, binding s = Some c ∧ row !! c = Some v ∧ cannot_convert s v = true.
Proof.
  rewrite (cell_of_binding row (binding s) (λ v, cannot_convert s v = true)).
  destruct s as [col|col|col|col|col ty|col ty|col kt vt|];
    cbn [step_failure binding cannot_convert].
  - simpl. unfold utils.to_str. destruct col as [c|]; simpl; [|done].
    destruct (row !! c) as [v|]; [|done]. by destruct v.
  - split; [by intros [=]|].
    destruct col as [c|]; simpl; [|done]. by destruct (row !! c).
  - rewrite failure_CoercionError by apply to_optional_int_Raise.
    simpl. unfold utils.to_optional_int.
    destruct col as [c|]; [rewrite present_cell|]; simpl; [|done].
    destruct (row !! c) as [v|]; [|done].
    destruct v; try done;
      match goal with |- context [utils.as_int ?v] =>
        destruct (utils.as_int v) end; done.
  - rewrite failure_CoercionError by apply to_optional_float_Raise.
    simpl. unfold utils.to_optional_float.
    destruct col as [c|]; [rewrite present_cell|]; simpl; [|done].
    destruct (row !! c) as [v|]; [|done].
    destruct v; try done;
      match goal with |- context [utils.as_float ?v] =>
        destruct (utils.as_float v) end; done.
  - rewrite failure_CoercionError by apply to_optional_list_Raise.
    rewrite to_optional_list_raises.
    destruct col as [c|]; [rewrite present_cell|]; simpl; [|done].
    destruct (row !! c) as [v|]; [|done]. by destruct v.
  - rewrite failure_CoercionError by apply to_list_Raise.
    transitivity (raises (to_optional_list row col ty) = true).
    { simpl. unfold utils.to_list.
      by destruct (utils.to_optional_list row col ty). }
    rewrite to_optional_list_raises.
    destruct col as [c|]; [rewrite present_cell|]; simpl; [|done].
    destruct (row !! c) as [v|]; [|done]. by destruct v.
  - rewrite failure_CoercionError by apply to_optional_dict_Raise.
    rewrite to_optional_dict_raises.
    destruct col as [c|]; [rewrite present_cell|]; simpl; [|done].
    destruct (row !! c) as [v|]; [|done]. by destruct v.
  - simpl. split; [|done]. by intros [=]%failure_Some%index_str_Raise.
Qed.

Lemma load_error_sources {A} (of_row : Row → Result A) (steps : list Step)
    df :
  (∀ row, failure (of_row row) = steps_failure steps row) →
  error_sources (_prepare_records df ≫= mapM of_row) steps df.
Proof.
  intros Hsteps. split.
  - rewrite (load_reaches _ steps) by done. split.
    + intros [[_ [=]]|(i & j & r & s & Hreach & Hs)].
      apply step_missing in Hs as (col & -> & Hcol). by exists i, j, r, col.
    + intros (i & j & r & col & Hreach & Hcol). right.
      exists i, j, r, (call_to_str col). split; [done|].
      apply step_missing. eauto.
  - rewrite (load_reaches _ steps) by done. split.
    + intros [[_ [=]]|(i & j & r & s & Hreach & Hs)].
      apply step_unconvertible in Hs as (c & v & ? & ? & ?).
      by exists i, j, r, s, c, v.
    + intros (i & j & r & s & c & v & Hreach & ? & ? & ?). right.
      exists i, j, r, s. split; [done|]. apply step_unconvertible. eauto.
Qed.

Lemma relationship_of_row_no_source kw row :
  raises (to_str row (Some (Relationships.id_col kw))) = false →
  raises (short_id_of row (Relationships.short_id_col kw)) = false →
  row !! Relationships.source_col kw = None →
  relationship_of_row kw row = Raise MissingColumnError.
Proof.
  intros Hid Hshort Hsource. unfold relationship_of_row.
  destruct (to_str row (Some (Relationships.id_col kw))); [|done].
  rewrite bind_Ok.
  destruct (short_id_of row (Relationships.short_id_col kw)); [|done].
  rewrite bind_Ok.
  by rewrite (proj2 (to_str_missing row
                       (Some (Relationships.source_col kw))) Hsource).
Qed.

(** C3, amended.  The calls of a load are made row by row and, within a
    row, in the order of the keyword arguments; the first one that fails
    decides the exception.  A load raises MissingColumnError exactly when
    that first failing call is a required-string coercion whose bound column
    is missing from the row's record (or whose binding is null), and
    CoercionError exactly when it is bound to a column under which the row
    has a cell that cannot be converted to the field's type.  So neither is
    raised on a table without rows, nor when the index reset fails.  In
    particular [read_relationships] raises MissingColumnError on a table
    whose first row's record lacks the column bound to [source_col],
    provided the index reset succeeds and [id] and [short_id], which come
    first, do not raise on that row. *)
Theorem errors_arise_in_rows df :
  (∀ kw, error_sources (read_entities df kw) (entity_steps kw) df) ∧
  (∀ kw,
     error_sources (read_relationships df kw) (relationship_steps kw) df) ∧
  (∀ kw, error_sources (read_covariates df kw) (covariate_steps kw) df) ∧
  (∀ kw, error_sources (read_communities df kw) (community_steps kw) df) ∧
  (∀ kw, error_sources (read_community_reports df kw)
           (community_report_steps kw) df) ∧
  (∀ kw, error_sources (read_text_units df kw) (text_unit_steps kw) df) ∧
  (∀ kw r rest,
     rows df = r :: rest → reset_label df ∉ columns df →
     raises (to_str (record_of df r) (Some (Relationships.id_col kw)))
       = false →
     raises (short_id_of (record_of df r) (Relationships.short_id_col kw))
       = false →
     record_of df r !! Relationships.source_col kw = None →
     read_relationships df kw = Raise MissingColumnError).
Proof.
  split_and!.
  - intros kw. apply load_error_sources, entity_of_row_steps.
  - intros kw. apply load_error_sources, relationship_of_row_steps.
  - intros kw. apply load_error_sources, covariate_of_row_steps.
  - intros kw. apply load_error_sources, community_of_row_steps.
  - intros kw. apply load_error_sources, community_report_of_row_steps.
  - intros kw. apply load_error_sources, text_unit_of_row_steps.
  - intros kw r rest Hrows Hfresh Hid Hshort Hsource.
    eapply load_first_row_Raise; [done..|].
    by apply relationship_of_row_no_source.
Qed.

End spec_helpers.

(** ** The example tables, run *)

Section examples.
#[local] Existing Instance decimal_builtins.
#[local] Existing Instance spec_coercions.

Lemma entities_frame_range_index : range_index entities_frame.
Proof.
  split; [done|]. intros [|[|i]] label cells; simpl; intros [=]; by subst.
Qed.

Lemma entities_frame_no_index_column : no_index_column entities_frame.
Proof. split; apply (bool_decide_unpack _); by vm_compute. Qed.

Lemma text_units_frame_range_index : range_index text_units_frame.
Proof.
  split; [done|]. intros [|[|i]] label cells; simpl; intros [=]; by subst.
Qed.

Lemma text_units_frame_no_index_column : no_index_column text_units_frame.
Proof. split; apply (bool_decide_unpack _); by vm_compute. Qed.

Lemma relationships_empty_fresh :
  reset_label relationships_empty ∉ columns relationships_empty.
Proof. apply (bool_decide_unpack _). by vm_compute. Qed.

Lemma covariates_frame_cells r :
  r ∈ rows covariates_frame → ∃ i s, r.2 = [i; s] ∧ i ≠ VNone ∧ s ≠ VNone.
Proof.
  intros Hr. simpl in Hr.
  repeat (apply elem_of_cons in Hr as [->|Hr]; [by eexists _, _|]).
  by apply elem_of_nil in Hr.
Qed.

(** *** C1 *)

(** With the default binding [short_id_col="human_readable_id"] on a table
    without that column the short ids are null, not ["0"] and ["1"]; with
    the binding null on a table whose index labels are 5 and 7 they are
    ["5"] and ["7"]. *)
Lemma short_id_not_position :
  fields Entity.short_id (read_entities entities_frame Entities.defaults)
  = Ok [None; None] ∧
  fields Entity.short_id (read_entities filtered_frame (entities_bare None))
  = Ok [Some "5"; Some "7"].
Proof. split; reflexivity. Qed.

Lemma filtered_frame_no_index_column : no_index_column filtered_frame.
Proof. split; apply (bool_decide_unpack _); by vm_compute. Qed.

Lemma short_id_source_witness :
  (∃ objs, read_entities entities_frame (entities_bare None) = Ok objs ∧
           Entity.short_id <$> objs = [Some "0"; Some "1"] ∧
           short_ids_are_positions entities_frame (Entity.short_id <$> objs)) ∧
  (∃ objs, read_entities filtered_frame (entities_bare None) = Ok objs ∧
           Entity.short_id <$> objs = [Some "5"; Some "7"] ∧
           short_ids_are_labels filtered_frame (Entity.short_id <$> objs)) ∧
  (∃ objs, read_entities entities_numbered_frame Entities.defaults = Ok objs ∧
           Entity.short_id <$> objs = [Some "10"; Some "11"] ∧
           short_ids_from_column entities_numbered_frame
             (Some "human_readable_id") (Entity.short_id <$> objs)).
Proof.
  split_and!.
  - eexists. split; [vm_compute; reflexivity|]. split; [reflexivity|].
    apply (proj1 (proj1 (proj2 (proj2 (short_id_source entities_frame)))
                    entities_frame_range_index
                    entities_frame_no_index_column)
             (entities_bare None)); reflexivity.
  - eexists. split; [vm_compute; reflexivity|]. split; [reflexivity|].
    apply (proj1 (proj1 (proj2 (short_id_source filtered_frame))
                    eq_refl filtered_frame_no_index_column)
             (entities_bare None)); reflexivity.
  - eexists. split; [vm_compute; reflexivity|]. split; [reflexivity|].
    apply (proj1 (proj2 (proj2 (proj2
                    (short_id_source entities_numbered_frame))))
             Entities.defaults); reflexivity.
Defined.

(** *** C2 *)

(** The default bindings on a table with columns [id, subject_id] raise:
    ["type"] is bound and looked up. *)
Lemma default_covariate_type_raises :
  columns covariates_frame = ["id"; "subject_id"] ∧
  read_covariates covariates_frame Covariates.defaults
  = Raise MissingColumnError.
Proof. split; reflexivity. Qed.

Lemma covariate_type_claim_when_unbound_witness :
  (∃ objs, read_covariates covariates_frame covariates_untyped = Ok objs ∧
           length objs = length (rows covariates_frame) ∧
           ∀ o, o ∈ objs → Covariate.covariate_type o = "claim") ∧
  (rows covariates_frame ≠ [] →
   read_covariates covariates_frame Covariates.defaults
   = Raise MissingColumnError).
Proof.
  exact (covariate_type_claim_when_unbound covariates_frame
           eq_refl eq_refl covariates_frame_cells).
Defined.

(** *** C3 *)

(** A table without rows and without the column bound to [source_col]
    loads to the empty list: no MissingColumnError. *)
Lemma missing_source_on_empty_table :
  bool_decide ("source" ∈ columns relationships_empty) = false ∧
  read_relationships relationships_empty Relationships.defaults = Ok [].
Proof. split; reflexivity. Qed.

Lemma errors_arise_in_rows_witness :
  read_relationships relationships_frame Relationships.defaults
  = Raise MissingColumnError ∧
  missing_column (relationship_steps Relationships.defaults)
    relationships_frame ∧
  read_entities entities_rank_frame Entities.defaults = Raise CoercionError ∧
  unconvertible_cell (entity_steps Entities.defaults) entities_rank_frame.
Proof.
  destruct (errors_arise_in_rows relationships_frame)
    as (_ & Hr & _ & _ & _ & _ & Hsource).
  destruct (errors_arise_in_rows entities_rank_frame) as (He & _).
  assert (read_relationships relationships_frame Relationships.defaults
          = Raise MissingColumnError) as Hload.
  { eapply Hsource; [reflexivity| |reflexivity..].
    apply (bool_decide_unpack _). by vm_compute. }
  split_and!.
  - exact Hload.
  - exact (proj1 (proj1 (Hr Relationships.defaults)) Hload).
  - reflexivity.
  - exact (proj1 (proj2 (He Entities.defaults)) eq_refl).
Defined.

(** *** C4 *)

Lemma loaders_row_by_row_witness :
  ∃ objs, read_entities entities_frame (entities_bare None) = Ok objs ∧
          row_by_row (entity_of_row (entities_bare None)) entities_frame objs.
Proof.
  eexists. split; [reflexivity|].
  apply (proj1 (loaders_row_by_row entities_frame)). reflexivity.
Defined.

(** *** C5 *)

Lemma children_default_empty_witness :
  ∃ objs o,
    read_communities communities_frame Communities.defaults = Ok objs ∧
    objs !! 0%nat = Some o ∧ Community.children o = [].
Proof.
  eexists _, _. split; [reflexivity|]. split; [reflexivity|].
  refine (proj2 (children_default_empty communities_frame Communities.defaults
                   _ 0%nat _ _ _ _ _ _)); reflexivity.
Defined.

(** *** C6 *)




(** *** C7 *)

(** Listing ["Index"], which is no column of the table, copies the row's
    index label rather than null. *)
Lemma attributes_Index_not_null :
  bool_decide ("Index" ∈ columns entities_frame) = false ∧
  fields Entity.attributes
    (read_entities entities_frame (entities_bare (Some ["Index"])))
  = Ok [Some {["Index" := VInt 0]}; Some {["Index" := VInt 1]}].
Proof. split; reflexivity. Qed.

Lemma attributes_copied_witness :
  ∃ objs,
    read_entities entities_frame (entities_bare (Some ["foo"])) = Ok objs ∧
    Entity.attributes <$> objs
    = [Some {["foo" := VNone]}; Some {["foo" := VNone]}] ∧
    attributes_passthrough entities_frame ["foo"] (Entity.attributes <$> objs).
Proof.
  eexists. split; [reflexivity|]. split; [reflexivity|].
  apply (proj1 (attributes_copied entities_frame)
           (entities_bare (Some ["foo"]))); [reflexivity|done|reflexivity].
Defined.

(** *** C8 *)

Lemma parent_is_required_witness :
  ∃ e, read_communities communities_orphan_frame Communities.defaults
       = Raise e.
Proof.
  refine (proj2 (parent_is_required communities_orphan_frame
                   Communities.defaults) _ _ _).
  - apply list_elem_of_here.
  - reflexivity.
Defined.

(** *** C9 *)

(** A table whose only row carries the index label 5: the short id is
    ["5"], the row position is 0. *)
Lemma text_unit_short_id_not_position :
  fields TextUnit.short_id
    (read_text_units text_units_filtered_frame TextUnits.defaults)
  = Ok [Some "5"] ∧
  str (VInt 0) = "0".
Proof. split; reflexivity. Qed.

Lemma text_units_filtered_frame_no_index_column :
  no_index_column text_units_filtered_frame.
Proof. split; apply (bool_decide_unpack _); by vm_compute. Qed.

Lemma text_unit_short_id_witness :
  (∃ objs, read_text_units text_units_frame TextUnits.defaults = Ok objs ∧
           TextUnit.short_id <$> objs = [Some "0"; Some "1"] ∧
           short_ids_are_positions text_units_frame
             (TextUnit.short_id <$> objs)) ∧
  (∃ objs,
     read_text_units text_units_filtered_frame TextUnits.defaults = Ok objs ∧
     TextUnit.short_id <$> objs = [Some "5"] ∧
     short_ids_are_labels text_units_filtered_frame
       (TextUnit.short_id <$> objs)).
Proof.
  split.
  - eexists. split; [vm_compute; reflexivity|]. split; [reflexivity|].
    refine (proj1 (proj2 (proj2 (text_unit_short_id text_units_frame
                                   TextUnits.defaults _ _)))
              text_units_frame_range_index text_units_frame_no_index_column).
    reflexivity.
  - eexists. split; [vm_compute; reflexivity|]. split; [reflexivity|].
    refine (proj1 (proj2 (text_unit_short_id text_units_filtered_frame
                            TextUnits.defaults _ _))
              eq_refl text_units_filtered_frame_no_index_column).
    reflexivity.
Defined.

(** *** C10 *)

(** A table without rows whose index is named like its column: the index
    reset raises before any row is looked at. *)
Lemma empty_table_reset_raises :
  rows named_index_frame = [] ∧
  read_entities named_index_frame Entities.defaults = Raise ValueError.
Proof. split; reflexivity. Qed.

Lemma loaders_empty_table_witness :
  bool_decide ("title" ∈ columns relationships_empty) = false ∧
  read_entities relationships_empty Entities.defaults = Ok [].
Proof.
  split; [reflexivity|].
  exact (proj1 (loaders_empty_table relationships_empty eq_refl
                  relationships_empty_fresh)
           Entities.defaults).
Defined.

End examples.


(** ** More on the prepared records *)

Lemma dict_of_zip_acc_last (keys : list string) (cells : list Value)
    (d : Row) (j : nat) (k : string) (v : Value) :
  keys !! j = Some k →
  (∀ j' : nat, (j < j')%nat → keys !! j' ≠ Some k) →
  cells !! j = Some v →
  foldl (λ d kv, <[kv.1 := kv.2]> d) d (zip keys cells) !! k = Some v.
Proof.
  revert cells d j.
  induction keys as [|k' keys IH]; intros cells d j Hk Hlast Hv; [done|].
  destruct cells as [|v' cells]; [done|]. destruct j as [|j]; simpl in *.
  - simplify_eq. rewrite dict_of_zip_acc_absent; [apply lookup_insert_eq|].
    intros [j' Hj']%list_elem_of_lookup. apply (Hlast (S j')); [lia|done].
  - eapply IH; [done| |done]. intros j' Hj'. apply (Hlast (S j')). lia.
Qed.

(** [dict(zip(keys, cells))[k]] is the cell at the last position of [k]
    among the keys. *)
Lemma dict_of_zip_last (keys : list string) (cells : list Value)
    (j : nat) (k : string) (v : Value) :
  keys !! j = Some k →
  (∀ j' : nat, (j < j')%nat → keys !! j' ≠ Some k) →
  cells !! j = Some v →
  dict_of_zip keys cells !! k = Some v.
Proof. apply dict_of_zip_acc_last. Qed.

Lemma dict_of_zip_is_Some (keys : list string) (cells : list Value)
    (k : string) :
  is_Some (dict_of_zip keys cells !! k) → k ∈ keys.
Proof.
  intros Hk. destruct (decide (k ∈ keys)) as [|Hnin]; [done|].
  rewrite dict_of_zip_absent in Hk by done. by destruct Hk.
Qed.

Lemma dict_of_zip_acc_mono (kvs : list (string * Value)) (d : Row)
    (k : string) :
  is_Some (d !! k) →
  is_Some (foldl (λ d kv, <[kv.1 := kv.2]> d) d kvs !! k).
Proof.
  revert d. induction kvs as [|[k' v'] kvs IH]; intros d Hk; [done|].
  simpl. apply IH. destruct (decide (k' = k)) as [->|Hne].
  - rewrite lookup_insert_eq. eauto.
  - by rewrite lookup_insert_ne.
Qed.

Lemma dict_of_zip_acc_present (keys : list string) (cells : list Value)
    (d : Row) (k : string) :
  k ∈ keys → (length keys ≤ length cells)%nat →
  is_Some (foldl (λ d kv, <[kv.1 := kv.2]> d) d (zip keys cells) !! k).
Proof.
  revert cells d. induction keys as [|k' keys IH]; intros cells d Hk Hlen.
  - by apply elem_of_nil in Hk.
  - destruct cells as [|v' cells]; simpl in *; [lia|].
    apply elem_of_cons in Hk as [->|Hk].
    + apply dict_of_zip_acc_mono. rewrite lookup_insert_eq. eauto.
    + apply IH; [done|lia].
Qed.

Lemma record_columns_no_index (df : DataFrame) : "index" ∉ record_columns df.
Proof.
  unfold record_columns. intros (c & Hc & _)%list_elem_of_fmap.
  by destruct (String.eqb_spec c "index").
Qed.

Lemma length_record_columns (df : DataFrame) :
  length (record_columns df) = S (length (columns df)).
Proof. unfold record_columns. by rewrite length_fmap. Qed.

(** X2.  The keys of a prepared record are column labels of the reset and
    renamed frame: never ["index"], which the rename has turned into
    ["Index"]; and the record of a row with a cell for every column has all
    of them as keys. *)
Theorem record_keys (df : DataFrame) (records : list Row) :
  _prepare_records df = Ok records →
  (∀ row, row ∈ records → row !! "index" = None) ∧
  (∀ row k, row ∈ records → is_Some (row !! k) → k ∈ record_columns df) ∧
  (∀ (i : nat) r row k,
     rows df !! i = Some r → records !! i = Some row →
     length (columns df) ≤ length r.2 →
     k ∈ record_columns df → is_Some (row !! k)).
Proof.
  intros [_ ->]%prepare_records_inv. split_and!.
  - intros row (r & -> & _)%list_elem_of_fmap.
    apply record_of_absent, record_columns_no_index.
  - intros row k (r & -> & _)%list_elem_of_fmap.
    apply dict_of_zip_is_Some.
  - intros i r row k Hr Hrow Hlen Hk.
    rewrite list_lookup_fmap, Hr in Hrow. injection Hrow as <-.
    apply dict_of_zip_acc_present; [done|].
    rewrite length_record_columns. simpl. lia.
Qed.

(** ** More on the loaders, whatever the helpers do *)

Section more_on_loaders.
Context `{!PyBuiltins, !Coercions}.

Lemma mapM_app {A B} (f : A → Result B) (l1 l2 : list A) (k : list B) :
  mapM f (l1 ++ l2) = Ok k ↔
  ∃ k1 k2, mapM f l1 = Ok k1 ∧ mapM f l2 = Ok k2 ∧ k = k1 ++ k2.
Proof.
  rewrite mapM_Ok, Forall2_app_inv_l. split.
  - intros (k1 & k2 & ?%mapM_Ok & ?%mapM_Ok & ->). eauto.
  - intros (k1 & k2 & ?%mapM_Ok & ?%mapM_Ok & ->). eauto.
Qed.

Lemma load_app {A} (of_row : Row → Result A) df l1 l2 (objs : list A) :
  _prepare_records (with_rows df (l1 ++ l2)) ≫= mapM of_row = Ok objs ↔
  ∃ objs1 objs2,
    _prepare_records (with_rows df l1) ≫= mapM of_row = Ok objs1 ∧
    _prepare_records (with_rows df l2) ≫= mapM of_row = Ok objs2 ∧
    objs = objs1 ++ objs2.
Proof.
  rewrite load_Ok. simpl. rewrite Forall2_app_inv_l. split.
  - intros (Hfresh & objs1 & objs2 & H1 & H2 & ->).
    exists objs1, objs2. split_and!; [..|done]; by apply load_Ok.
  - intros (objs1 & objs2 & [Hfresh H1]%load_Ok & [_ H2]%load_Ok & ->).
    split; [done|]. eauto.
Qed.

Lemma load_row_local {A} (of_row : Row → Result A) df df'
    (objs objs' : list A) (i j : nat) r :
  index_name df = index_name df' → columns df = columns df' →
  _prepare_records df ≫= mapM of_row = Ok objs →
  _prepare_records df' ≫= mapM of_row = Ok objs' →
  rows df !! i = Some r → rows df' !! j = Some r →
  objs !! i = objs' !! j.
Proof.
  intros Hname Hcols [_ Hrows]%load_row_by_row [_ Hrows']%load_row_by_row
    Hr Hr'.
  destruct (Hrows i r Hr) as (o & -> & Hrow).
  destruct (Hrows' j r Hr') as (o' & -> & Hrow').
  assert (record_of df r = record_of df' r) as Heq.
  { unfold record_of, record_columns, reset_label. by rewrite Hname, Hcols. }
  rewrite Heq in Hrow. congruence.
Qed.

Lemma load_attributes_None {A} (of_row : Row → Result A)
    (attributes : A → option Row) (cols : option (list string))
    df (objs : list A) :
  truthy_cols cols = false →
  (∀ row o, of_row row = Ok o → attributes o = attributes_dict row cols) →
  _prepare_records df ≫= mapM of_row = Ok objs →
  ∀ o, o ∈ objs → attributes o = None.
Proof.
  intros Hcols Hfield [_ Hobjs]%load_Ok o [j Hj]%list_elem_of_lookup.
  destruct (Forall2_lookup_r _ _ _ _ _ Hobjs Hj) as (r & _ & Hrow).
  rewrite (Hfield _ _ Hrow). unfold attributes_dict. by rewrite Hcols.
Qed.

Lemma short_id_of_no_Index (row : Row) (col : option string) :
  truthy_col col = false → row !! "Index" = None →
  short_id_of row col = Raise (KeyError "Index").
Proof.
  intros Hcol Hrow. unfold short_id_of, index_str, getitem.
  by rewrite Hcol, Hrow.
Qed.

Lemma index_str_no_Index (row : Row) :
  row !! "Index" = None → index_str row = Raise (KeyError "Index").
Proof. intros Hrow. unfold index_str, getitem. by rewrite Hrow. Qed.

Lemma named_index_no_Index df n r :
  index_name df = Some n → n ≠ "index" → n ≠ "Index" →
  no_index_column df → record_of df r !! "Index" = None.
Proof.
  intros Hname Hn HN [Hindex HIndex]. apply record_of_absent.
  unfold record_columns, reset_label. rewrite Hname.
  intros (c & Hc & Hin)%list_elem_of_fmap.
  destruct (String.eqb_spec c "index") as [Heq|Hne].
  - apply elem_of_cons in Hin as [?|?]; by subst c.
  - apply elem_of_cons in Hin as [?|?]; by subst c.
Qed.

(** X3.  [row["Index"]], the source of every short id fallback, is the
    cell of the last column of the reset and renamed frame that is labelled
    ["Index"]: the old index when the table has no column called ["index"]
    or ["Index"], else that column of the table.  So [read_text_units] gives
    a table with a column ["Index"] the [str] of that column's cells as
    short ids. *)
Theorem index_entry_source df (j : nat) :
  record_columns df !! j = Some "Index" →
  (∀ j' : nat, (j < j')%nat → record_columns df !! j' ≠ Some "Index") →
  (∀ r v, (r.1 :: r.2) !! j = Some v → record_of df r !! "Index" = Some v) ∧
  (∀ kw objs (i : nat) r v,
     read_text_units df kw = Ok objs →
     rows df !! i = Some r → (r.1 :: r.2) !! j = Some v →
     TextUnit.short_id <$> objs !! i = Some (Some (str v))).
Proof.
  intros Hj Hlast.
  assert (∀ r v, (r.1 :: r.2) !! j = Some v →
                 record_of df r !! "Index" = Some v) as Hentry.
  { intros r v Hv. unfold record_of. by eapply dict_of_zip_last. }
  split; [done|]. intros kw objs i r v Hload Hr Hv.
  destruct (unbound_short_id_from_index df) as (_ & _ & _ & _ & _ & Ht).
  destruct (Ht kw objs Hload i r Hr) as (v' & Hv' & Hid).
  rewrite (Hentry r v Hv) in Hv'. injection Hv' as <-.
  by rewrite <- list_lookup_fmap.
Qed.

Lemma text_unit_of_row_no_Index kw row :
  row !! "Index" = None → raises (text_unit_of_row kw row) = true.
Proof.
  intros Hs%index_str_no_Index. unfold text_unit_of_row.
  repeat first [ rewrite Hs; done | apply bind_raises; intros ? ].
Qed.

Lemma entity_of_row_no_Index kw row :
  truthy_col (Entities.short_id_col kw) = false →
  row !! "Index" = None → raises (entity_of_row kw row) = true.
Proof.
  intros Hcol Hrow. unfold entity_of_row.
  rewrite (short_id_of_no_Index _ _ Hcol Hrow).
  repeat first [ done | apply bind_raises; intros ? ].
Qed.

Lemma relationship_of_row_no_Index kw row :
  truthy_col (Relationships.short_id_col kw) = false →
  row !! "Index" = None → raises (relationship_of_row kw row) = true.
Proof.
  intros Hcol Hrow. unfold relationship_of_row.
  rewrite (short_id_of_no_Index _ _ Hcol Hrow).
  repeat first [ done | apply bind_raises; intros ? ].
Qed.

Lemma covariate_of_row_no_Index kw row :
  truthy_col (Covariates.short_id_col kw) = false →
  row !! "Index" = None → raises (covariate_of_row kw row) = true.
Proof.
  intros Hcol Hrow. unfold covariate_of_row.
  rewrite (short_id_of_no_Index _ _ Hcol Hrow).
  repeat first [ done | apply bind_raises; intros ? ].
Qed.

Lemma community_of_row_no_Index kw row :
  truthy_col (Communities.short_id_col kw) = false →
  row !! "Index" = None → raises (community_of_row kw row) = true.
Proof.
  intros Hcol Hrow. unfold community_of_row.
  rewrite (short_id_of_no_Index _ _ Hcol Hrow).
  repeat first [ done | apply bind_raises; intros ? ].
Qed.

Lemma community_report_of_row_no_Index kw row :
  truthy_col (CommunityReports.short_id_col kw) = false →
  row !! "Index" = None → raises (community_report_of_row kw row) = true.
Proof.
  intros Hcol Hrow. unfold community_report_of_row.
  rewrite (short_id_of_no_Index _ _ Hcol Hrow).
  repeat first [ done | apply bind_raises; intros ? ].
Qed.

(** X4.  A table with at least one row whose index carries a name other
    than ["index"] and ["Index"], and with no column of those names, has no
    ["Index"] entry in its records: no loader whose [short_id_col] is unbound
    can load it, and [read_text_units] never can; where the index reset and
    the first row's [id] go through, what is raised is Python's KeyError for
    ["Index"]. *)
Theorem named_index_breaks_fallback df n :
  index_name df = Some n → n ≠ "index" → n ≠ "Index" →
  no_index_column df → rows df ≠ [] →
  (∀ kw, truthy_col (Entities.short_id_col kw) = false →
     ∃ e, read_entities df kw = Raise e) ∧
  (∀ kw, truthy_col (Relationships.short_id_col kw) = false →
     ∃ e, read_relationships df kw = Raise e) ∧
  (∀ kw, truthy_col (Covariates.short_id_col kw) = false →
     ∃ e, read_covariates df kw = Raise e) ∧
  (∀ kw, truthy_col (Communities.short_id_col kw) = false →
     ∃ e, read_communities df kw = Raise e) ∧
  (∀ kw, truthy_col (CommunityReports.short_id_col kw) = false →
     ∃ e, read_community_reports df kw = Raise e) ∧
  (∀ kw, ∃ e, read_text_units df kw = Raise e) ∧
  (∀ kw r rest s,
     rows df = r :: rest → n ∉ columns df →
     to_str (record_of df r) (Some (TextUnits.id_col kw)) = Ok s →
     read_text_units df kw = Raise (KeyError "Index")).
Proof.
  intros Hname Hn HN Hcols Hrows.
  assert (∀ r, record_of df r !! "Index" = None) as Hrow.
  { intros r. by eapply named_index_no_Index. }
  destruct (rows df) as [|r0 rest0] eqn:Hr0; [done|].
  assert (r0 ∈ rows df) as Hin by (rewrite Hr0; by left).
  split_and!.
  - intros kw Hcol. apply raises_true. eapply load_raises; [done|].
    by apply entity_of_row_no_Index.
  - intros kw Hcol. apply raises_true. eapply load_raises; [done|].
    by apply relationship_of_row_no_Index.
  - intros kw Hcol. apply raises_true. eapply load_raises; [done|].
    by apply covariate_of_row_no_Index.
  - intros kw Hcol. apply raises_true. eapply load_raises; [done|].
    by apply community_of_row_no_Index.
  - intros kw Hcol. apply raises_true. eapply load_raises; [done|].
    by apply community_report_of_row_no_Index.
  - intros kw. apply raises_true. eapply load_raises; [done|].
    by apply text_unit_of_row_no_Index.
  - intros kw r rest s [= <- <-] Hfresh Hid.
    eapply load_first_row_Raise; [done| |].
    + unfold reset_label. by rewrite Hname.
    + unfold text_unit_of_row. rewrite Hid. simpl.
      by rewrite (index_str_no_Index _ (Hrow r0)).
Qed.

(** X5.  A loader raises [e] exactly when either the index reset fails,
    and then [e] is the ValueError of pandas, or the reset succeeds and the
    row expression raises [e] on some row while raising nothing on the rows
    before it: the first failing row aborts the load and decides the
    exception. *)
Theorem loader_failure df (e : Error) :
  (∀ kw, read_entities df kw = Raise e ↔
     (reset_label df ∈ columns df ∧ e = ValueError) ∨
     ((reset_label df ∉ columns df) ∧
      first_failure (entity_of_row kw) df e)) ∧
  (∀ kw, read_relationships df kw = Raise e ↔
     (reset_label df ∈ columns df ∧ e = ValueError) ∨
     ((reset_label df ∉ columns df) ∧
      first_failure (relationship_of_row kw) df e)) ∧
  (∀ kw, read_covariates df kw = Raise e ↔
     (reset_label df ∈ columns df ∧ e = ValueError) ∨
     ((reset_label df ∉ columns df) ∧
      first_failure (covariate_of_row kw) df e)) ∧
  (∀ kw, read_communities df kw = Raise e ↔
     (reset_label df ∈ columns df ∧ e = ValueError) ∨
     ((reset_label df ∉ columns df) ∧
      first_failure (community_of_row kw) df e)) ∧
  (∀ kw, read_community_reports df kw = Raise e ↔
     (reset_label df ∈ columns df ∧ e = ValueError) ∨
     ((reset_label df ∉ columns df) ∧
      first_failure (community_report_of_row kw) df e)) ∧
  (∀ kw, read_text_units df kw = Raise e ↔
     (reset_label df ∈ columns df ∧ e = ValueError) ∨
     ((reset_label df ∉ columns df) ∧
      first_failure (text_unit_of_row kw) df e)).
Proof. split_and!; intros kw; apply load_Raise_iff. Qed.

(** X6.  Loading is row-wise: a frame whose rows are [l1] followed by [l2]
    loads exactly when both parts load under the same index name and
    columns, and then to the objects of [l1] followed by those of [l2]. *)
Theorem loaders_concat df l1 l2 :
  (∀ kw objs, read_entities (with_rows df (l1 ++ l2)) kw = Ok objs ↔
     ∃ objs1 objs2, read_entities (with_rows df l1) kw = Ok objs1 ∧
                    read_entities (with_rows df l2) kw = Ok objs2 ∧
                    objs = objs1 ++ objs2) ∧
  (∀ kw objs, read_relationships (with_rows df (l1 ++ l2)) kw = Ok objs ↔
     ∃ objs1 objs2, read_relationships (with_rows df l1) kw = Ok objs1 ∧
                    read_relationships (with_rows df l2) kw = Ok objs2 ∧
                    objs = objs1 ++ objs2) ∧
  (∀ kw objs, read_covariates (with_rows df (l1 ++ l2)) kw = Ok objs ↔
     ∃ objs1 objs2, read_covariates (with_rows df l1) kw = Ok objs1 ∧
                    read_covariates (with_rows df l2) kw = Ok objs2 ∧
                    objs = objs1 ++ objs2) ∧
  (∀ kw objs, read_communities (with_rows df (l1 ++ l2)) kw = Ok objs ↔
     ∃ objs1 objs2, read_communities (with_rows df l1) kw = Ok objs1 ∧
                    read_communities (with_rows df l2) kw = Ok objs2 ∧
                    objs = objs1 ++ objs2) ∧
  (∀ kw objs,
     read_community_reports (with_rows df (l1 ++ l2)) kw = Ok objs ↔
     ∃ objs1 objs2,
       read_community_reports (with_rows df l1) kw = Ok objs1 ∧
       read_community_reports (with_rows df l2) kw = Ok objs2 ∧
       objs = objs1 ++ objs2) ∧
  (∀ kw objs, read_text_units (with_rows df (l1 ++ l2)) kw = Ok objs ↔
     ∃ objs1 objs2, read_text_units (with_rows df l1) kw = Ok objs1 ∧
                    read_text_units (with_rows df l2) kw = Ok objs2 ∧
                    objs = objs1 ++ objs2).
Proof. split_and!; intros kw objs; apply load_app. Qed.

(** X7.  The object a loader builds for a row depends on that row alone,
    its index label included, and on the index name and columns of the
    frame: two frames with the same index name and columns that both load
    give a row they share the same object, wherever it stands in each. *)
Theorem objects_row_local df df' (i j : nat) r :
  index_name df = index_name df' → columns df = columns df' →
  rows df !! i = Some r → rows df' !! j = Some r →
  (∀ kw objs objs', read_entities df kw = Ok objs →
     read_entities df' kw = Ok objs' → objs !! i = objs' !! j) ∧
  (∀ kw objs objs', read_relationships df kw = Ok objs →
     read_relationships df' kw = Ok objs' → objs !! i = objs' !! j) ∧
  (∀ kw objs objs', read_covariates df kw = Ok objs →
     read_covariates df' kw = Ok objs' → objs !! i = objs' !! j) ∧
  (∀ kw objs objs', read_communities df kw = Ok objs →
     read_communities df' kw = Ok objs' → objs !! i = objs' !! j) ∧
  (∀ kw objs objs', read_community_reports df kw = Ok objs →
     read_community_reports df' kw = Ok objs' → objs !! i = objs' !! j) ∧
  (∀ kw objs objs', read_text_units df kw = Ok objs →
     read_text_units df' kw = Ok objs' → objs !! i = objs' !! j).
Proof.
  intros Hname Hcols Hr Hr'.
  split_and!; intros kw objs objs' Hload Hload';
    by eapply (load_row_local _ df df').
Qed.

(** X8.  A loader builds no attributes mapping when [attributes_cols] is
    [None] or the empty list: every object's [attributes] is then null.  That
    is the default of five loaders; [read_text_units] defaults to
    [["metadata"]], so with its default bindings every TextUnit carries the
    mapping with the one key ["metadata"], its value [row.get("metadata")]. *)
Theorem attributes_when_unbound df :
  (∀ kw objs, truthy_cols (Entities.attributes_cols kw) = false →
     read_entities df kw = Ok objs →
     ∀ o, o ∈ objs → Entity.attributes o = None) ∧
  (∀ kw objs, truthy_cols (Relationships.attributes_cols kw) = false →
     read_relationships df kw = Ok objs →
     ∀ o, o ∈ objs → Relationship.attributes o = None) ∧
  (∀ kw objs, truthy_cols (Covariates.attributes_cols kw) = false →
     read_covariates df kw = Ok objs →
     ∀ o, o ∈ objs → Covariate.attributes o = None) ∧
  (∀ kw objs, truthy_cols (Communities.attributes_cols kw) = false →
     read_communities df kw = Ok objs →
     ∀ o, o ∈ objs → Community.attributes o = None) ∧
  (∀ kw objs, truthy_cols (CommunityReports.attributes_cols kw) = false →
     read_community_reports df kw = Ok objs →
     ∀ o, o ∈ objs → CommunityReport.attributes o = None) ∧
  (∀ kw objs, truthy_cols (TextUnits.attributes_cols kw) = false →
     read_text_units df kw = Ok objs →
     ∀ o, o ∈ objs → TextUnit.attributes o = None) ∧
  (∀ objs (i : nat) r,
     read_text_units df TextUnits.defaults = Ok objs →
     rows df !! i = Some r →
     TextUnit.attributes <$> objs !! i
     = Some (Some {["metadata" := get (record_of df r) "metadata"]})).
Proof.
  split_and!.
  - intros kw objs Hcols Hload.
    eapply load_attributes_None; [done| |done].
    intros row o Hrow. by apply entity_of_row_fields in Hrow as [_ ?].
  - intros kw objs Hcols Hload.
    eapply load_attributes_None; [done| |done].
    intros row o Hrow. by apply relationship_of_row_fields in Hrow as [_ ?].
  - intros kw objs Hcols Hload.
    eapply load_attributes_None; [done| |done].
    intros row o Hrow. by apply covariate_of_row_fields in Hrow as [_ ?].
  - intros kw objs Hcols Hload.
    eapply load_attributes_None; [done| |done].
    intros row o Hrow. by apply community_of_row_fields in Hrow as [_ ?].
  - intros kw objs Hcols Hload.
    eapply load_attributes_None; [done| |done].
    intros row o Hrow.
    by apply community_report_of_row_fields in Hrow as [_ ?].
  - intros kw objs Hcols Hload.
    eapply load_attributes_None; [done| |done].
    intros row o Hrow. by apply text_unit_of_row_fields in Hrow as [_ ?].
  - intros objs i r [_ Hrows]%load_row_by_row Hr.
    destruct (Hrows i r Hr) as (o & Ho & Hrow).
    apply text_unit_of_row_fields in Hrow as [_ Hattrs].
    rewrite Ho. simpl. by rewrite Hattrs.
Qed.

Lemma covariate_of_row_type_bound kw row o :
  truthy_col (Covariates.covariate_type_col kw) = true →
  covariate_of_row kw row = Ok o →
  to_str row (Covariates.covariate_type_col kw)
  = Ok (Covariate.covariate_type o).
Proof.
  intros Hcol Hrow. unfold covariate_of_row in Hrow. rewrite Hcol in Hrow.
  repeat (let Hk := fresh in
          apply bind_Ok_inv in Hrow; destruct Hrow as (? & ? & Hk);
          rename Hk into Hrow).
  by injection Hrow as <-.
Qed.

(** X9.  The [covariate_type] of every Covariate of a load is the literal
    ["claim"] when [covariate_type_col] is [None] or empty, whatever the
    table holds, also in a column called ["type"]; with a column bound it is
    what [to_str] makes of that column of the row. *)
Theorem covariate_type_source df kw objs (i : nat) r o :
  read_covariates df kw = Ok objs →
  rows df !! i = Some r → objs !! i = Some o →
  (truthy_col (Covariates.covariate_type_col kw) = false →
   Covariate.covariate_type o = "claim") ∧
  (truthy_col (Covariates.covariate_type_col kw) = true →
   to_str (record_of df r) (Covariates.covariate_type_col kw)
   = Ok (Covariate.covariate_type o)).
Proof.
  intros [_ Hrows]%load_row_by_row Hr Ho.
  destruct (Hrows i r Hr) as (o' & Ho' & Hrow). simplify_eq. split.
  - intros Hcol. by eapply covariate_of_row_type.
  - intros Hcol. by apply covariate_of_row_type_bound.
Qed.

(** X10.  Every loader evaluates [id] first: on a table whose index reset
    succeeds, what [to_str] raises for the first row's [id] is what the load
    raises, whatever the other bindings and the other rows. *)
Theorem id_checked_first df r rest (e : Error) :
  rows df = r :: rest → reset_label df ∉ columns df →
  (∀ kw, to_str (record_of df r) (Some (Entities.id_col kw)) = Raise e →
     read_entities df kw = Raise e) ∧
  (∀ kw, to_str (record_of df r) (Some (Relationships.id_col kw)) = Raise e →
     read_relationships df kw = Raise e) ∧
  (∀ kw, to_str (record_of df r) (Some (Covariates.id_col kw)) = Raise e →
     read_covariates df kw = Raise e) ∧
  (∀ kw, to_str (record_of df r) (Some (Communities.id_col kw)) = Raise e →
     read_communities df kw = Raise e) ∧
  (∀ kw,
     to_str (record_of df r) (Some (CommunityReports.id_col kw)) = Raise e →
     read_community_reports df kw = Raise e) ∧
  (∀ kw, to_str (record_of df r) (Some (TextUnits.id_col kw)) = Raise e →
     read_text_units df kw = Raise e).
Proof.
  intros Hrows Hfresh.
  split_and!; intros kw Hid; (eapply load_first_row_Raise; [done..|]).
  - unfold entity_of_row. by rewrite Hid.
  - unfold relationship_of_row. by rewrite Hid.
  - unfold covariate_of_row. by rewrite Hid.
  - unfold community_of_row. by rewrite Hid.
  - unfold community_report_of_row. by rewrite Hid.
  - unfold text_unit_of_row. by rewrite Hid.
Qed.

End more_on_loaders.

(** ** More examples, run *)

Section more_examples.
#[local] Existing Instance decimal_builtins.
#[local] Existing Instance spec_coercions.

Lemma text_units_Index_frame_last (j' : nat) :
  (3 < j')%nat → record_columns text_units_Index_frame !! j' ≠ Some "Index".
Proof.
  intros Hj'. do 4 (destruct j' as [|j']; [lia|]). by vm_compute.
Qed.

Lemma text_units_named_frame_no_index_column :
  no_index_column text_units_named_frame.
Proof. split; apply (bool_decide_unpack _); by vm_compute. Qed.

Lemma record_keys_witness :
  ∃ records, _prepare_records entities_frame = Ok records ∧
             ∀ row, row ∈ records → row !! "index" = None.
Proof.
  eexists. split; [vm_compute; reflexivity|].
  refine (proj1 (record_keys entities_frame _ _)). reflexivity.
Defined.

Lemma index_entry_source_witness :
  ∃ objs,
    read_text_units text_units_Index_frame TextUnits.defaults = Ok objs ∧
    TextUnit.short_id <$> objs !! 1%nat = Some (Some "b-2").
Proof.
  eexists. split; [vm_compute; reflexivity|].
  refine (proj2 (index_entry_source text_units_Index_frame 3 _
                   text_units_Index_frame_last)
            TextUnits.defaults _ 1%nat _ (VStr "b-2") _ _ _);
    reflexivity.
Defined.

Lemma named_index_breaks_fallback_witness :
  read_text_units text_units_named_frame TextUnits.defaults
  = Raise (KeyError "Index").
Proof.
  destruct (named_index_breaks_fallback text_units_named_frame "chunk")
    as (_ & _ & _ & _ & _ & _ & Hkey);
    [reflexivity|discriminate|discriminate
    |exact text_units_named_frame_no_index_column|discriminate|].
  eapply Hkey; [reflexivity| |reflexivity].
  apply (bool_decide_unpack _). by vm_compute.
Defined.

Lemma loader_failure_witness :
  read_text_units text_units_null_frame TextUnits.defaults
  = Raise CoercionError.
Proof.
  destruct (loader_failure text_units_null_frame CoercionError)
    as (_ & _ & _ & _ & _ & Ht).
  apply Ht. right. split.
  - apply (bool_decide_unpack _). by vm_compute.
  - exists 1%nat, (VInt 1, [VNone; VStr "second"]).
    split; [reflexivity|]. split; [reflexivity|].
    intros [|j] r' Hj Hr'; [|lia]. injection Hr' as <-. reflexivity.
Defined.

Lemma loaders_concat_witness :
  ∃ objs1 objs2,
    read_text_units
      (with_rows text_units_frame [(VInt 0, [VStr "t1"; VStr "first"])])
      TextUnits.defaults = Ok objs1 ∧
    read_text_units
      (with_rows text_units_frame [(VInt 1, [VStr "t2"; VStr "second"])])
      TextUnits.defaults = Ok objs2 ∧
    read_text_units
      (with_rows text_units_frame
         ([(VInt 0, [VStr "t1"; VStr "first"])]
          ++ [(VInt 1, [VStr "t2"; VStr "second"])]))
      TextUnits.defaults = Ok (objs1 ++ objs2).
Proof.
  eexists _, _.
  split; [vm_compute; reflexivity|]. split; [vm_compute; reflexivity|].
  destruct (loaders_concat text_units_frame
              [(VInt 0, [VStr "t1"; VStr "first"])]
              [(VInt 1, [VStr "t2"; VStr "second"])])
    as (_ & _ & _ & _ & _ & Ht).
  apply Ht. eexists _, _.
  split; [vm_compute; reflexivity|]. split; vm_compute; reflexivity.
Defined.

Lemma objects_row_local_witness :
  ∃ objs objs',
    read_text_units text_units_frame TextUnits.defaults = Ok objs ∧
    read_text_units
      (with_rows text_units_frame [(VInt 1, [VStr "t2"; VStr "second"])])
      TextUnits.defaults = Ok objs' ∧
    objs !! 1%nat = objs' !! 0%nat.
Proof.
  eexists _, _.
  split; [vm_compute; reflexivity|]. split; [vm_compute; reflexivity|].
  destruct (objects_row_local text_units_frame
              (with_rows text_units_frame
                 [(VInt 1, [VStr "t2"; VStr "second"])])
              1 0 (VInt 1, [VStr "t2"; VStr "second"])
              eq_refl eq_refl eq_refl eq_refl)
    as (_ & _ & _ & _ & _ & Ht).
  eapply (Ht TextUnits.defaults); vm_compute; reflexivity.
Defined.

Lemma attributes_when_unbound_witness :
  ∃ objs,
    read_text_units text_units_frame TextUnits.defaults = Ok objs ∧
    TextUnit.attributes <$> objs !! 0%nat
    = Some (Some {["metadata" := VNone]}).
Proof.
  eexists. split; [vm_compute; reflexivity|].
  destruct (attributes_when_unbound text_units_frame)
    as (_ & _ & _ & _ & _ & _ & Ht).
  exact (Ht _ 0%nat (VInt 0, [VStr "t1"; VStr "first"]) eq_refl eq_refl).
Defined.

Lemma covariate_type_source_witness :
  ∃ objs o,
    read_covariates covariates_frame covariates_untyped = Ok objs ∧
    objs !! 0%nat = Some o ∧ Covariate.covariate_type o = "claim".
Proof.
  eexists _, _.
  split; [vm_compute; reflexivity|]. split; [vm_compute; reflexivity|].
  refine (proj1 (covariate_type_source covariates_frame covariates_untyped
                   _ 0%nat _ _ _ _ _) _); reflexivity.
Defined.

Lemma id_checked_first_witness :
  read_text_units
    (with_rows text_units_null_frame [(VInt 1, [VNone; VStr "second"])])
    TextUnits.defaults = Raise CoercionError.
Proof.
  destruct (id_checked_first
              (with_rows text_units_null_frame
                 [(VInt 1, [VNone; VStr "second"])])
              (VInt 1, [VNone; VStr "second"]) [] CoercionError eq_refl)
    as (_ & _ & _ & _ & _ & Ht).
  - apply (bool_decide_unpack _). by vm_compute.
  - apply Ht. reflexivity.
Defined.

End more_examples.
